(** * Health checks of the Cloud SQL Auth proxy

    A shallow embedding of package [healthcheck] in its three revisions:

    - [Instance]: src/unnamed/part_000, where the tracker owns its mutex
      [startedL] and offers [NotifyStarted], [isLive] and [isReady];
    - [Global]:   src/healthcheck/healthcheck.go, with package-level mutexes,
      [NotifyReadyForConnections], [livenessTest] and [readinessTest];
    - [Draft]:    src/unnamed/part_001, the first revision, whose
      [readinessTest] increments the connection counter before comparing.

    Go code runs in a state monad over a [World] holding the one tracker
    object, the package variables, the one [proxy.Client] object and the
    history of effects the tracker issued.  A computation finishes, parks
    on a held mutex, or panics. *)

From Stdlib Require Import NArith Lia List String Ascii Bool.
Import ListNotations.
Open Scope string_scope.
Open Scope list_scope.
Open Scope N_scope.

(** ** uint64 *)

Module U64.
Definition modulus : N := 2 ^ 64.
Definition wrap (x : N) : N := x mod modulus.
(** [x + y] on uint64 *)
Definition add (x y : N) : N := wrap (x + y).
(** [^x] on uint64 *)
Definition lnot (x : N) : N := N.lxor x (N.ones 64).
Definition in_range (x : N) : Prop := x < modulus.
End U64.

(** ** Outcomes and the monad of Go statements *)

Inductive fault :=
| NilDereference       (* invalid memory address or nil pointer dereference *)
| UnlockOfUnlocked.    (* sync: unlock of unlocked mutex *)

Inductive outcome (S A : Type) :=
| Done (a : A) (s : S)
| Blocked                (* parked for ever on a mutex that is held *)
| Panic (why : fault).
Arguments Done {S A} a s.
Arguments Blocked {S A}.
Arguments Panic {S A} why.

Definition M (S A : Type) : Type := S -> outcome S A.

Definition ret {S A} (a : A) : M S A := fun s => Done a s.

Definition bind {S A B} (m : M S A) (k : A -> M S B) : M S B :=
  fun s =>
    match m s with
    | Done a s' => k a s'
    | Blocked => Blocked
    | Panic why => Panic why
    end.

Notation "x <- m ;; k" := (bind m (fun x => k))
  (at level 61, m at next level, right associativity).
Notation "m ;; k" := (bind m (fun _ => k))
  (at level 61, right associativity).

Definition gets {S A} (f : S -> A) : M S A := fun s => Done (f s) s.
Definition modify {S} (f : S -> S) : M S unit := fun s => Done tt (f s).
Definition panic {S A} (why : fault) : M S A := fun _ => Panic why.

(** Go's [a && b]: [b] is evaluated only when [a] is true. *)
Definition andM {S} (a b : M S bool) : M S bool :=
  x <- a ;; if x then b else ret false.

(** [n] successive calls of the same statement. *)
Fixpoint times {S} (n : nat) (m : M S unit) : M S unit :=
  match n with
  | O => ret tt
  | S n' => m ;; times n' m
  end.

(** ** Pointers, mutexes, the client and the effects *)

(** The world holds one object of each pointed-to type, so a pointer is
    either nil or the address of that object. *)
Inductive ptr := nil | addr.

Inductive Mutex := Unlocked | Locked.

(** The two fields of [proxy.Client] the package uses. *)
Record Client := mkClient {
  MaxConnections : N;       (* uint64 *)
  ConnectionsCounter : N    (* uint64, accessed with sync/atomic *)
}.

Inductive event :=
| LoadCounter (v : N)                 (* atomic.LoadUint64 returned v *)
| AddCounter (delta v : N)            (* atomic.AddUint64 stored and returned v *)
| Errorf (format : string) (args : list N)   (* logging.Errorf *)
| Printf (format : string).                  (* fmt.Printf *)

Definition is_write (e : event) : bool :=
  match e with
  | AddCounter _ _ => true
  | _ => false
  end.

(** No event of the list writes the connection counter. *)
Definition reads_only (h : list event) : bool :=
  forallb (fun e => negb (is_write e)) h.

Record World (T G : Type) := mkWorld {
  tracker : T;            (* the health-check object *)
  pkg : G;                (* package-level variables *)
  client : Client;        (* the proxy client *)
  history : list event    (* effects issued so far, oldest first *)
}.
Arguments mkWorld {T G}.
Arguments tracker {T G}.
Arguments pkg {T G}.
Arguments client {T G}.
Arguments history {T G}.

Section WorldOps.
Context {T G : Type}.
Local Abbreviation W := (World T G).

Definition set_tracker (f : T -> T) (w : W) : W :=
  mkWorld (f (tracker w)) (pkg w) (client w) (history w).
Definition set_pkg (f : G -> G) (w : W) : W :=
  mkWorld (tracker w) (f (pkg w)) (client w) (history w).
Definition set_client (f : Client -> Client) (w : W) : W :=
  mkWorld (tracker w) (pkg w) (f (client w)) (history w).
Definition emit (e : event) : M W unit :=
  modify (fun w => mkWorld (tracker w) (pkg w) (client w) (history w ++ [e])).

(** Reaching a field through a pointer. *)
Definition deref (p : ptr) : M W unit :=
  match p with
  | nil => panic NilDereference
  | addr => ret tt
  end.

(** [m.Lock()] and [m.Unlock()] for a mutex found by [get] and
    replaced by [set]. *)
Definition Lock (get : W -> Mutex) (set : Mutex -> W -> W) : M W unit :=
  fun w =>
    match get w with
    | Unlocked => Done tt (set Locked w)
    | Locked => Blocked
    end.

Definition Unlock (get : W -> Mutex) (set : Mutex -> W -> W) : M W unit :=
  fun w =>
    match get w with
    | Locked => Done tt (set Unlocked w)
    | Unlocked => Panic UnlockOfUnlocked
    end.

(** [c.MaxConnections] *)
Definition readMaxConnections (c : ptr) : M W N :=
  deref c ;; gets (fun w => MaxConnections (client w)).

(** [atomic.LoadUint64(&c.ConnectionsCounter)] *)
Definition LoadUint64 (c : ptr) : M W N :=
  deref c ;;
  v <- gets (fun w => ConnectionsCounter (client w)) ;;
  emit (LoadCounter v) ;;
  ret v.

(** [atomic.AddUint64(&c.ConnectionsCounter, delta)] *)
Definition AddUint64 (c : ptr) (delta : N) : M W N :=
  deref c ;;
  old <- gets (fun w => ConnectionsCounter (client w)) ;;
  let v := U64.add old delta in
  modify (set_client (fun cl => mkClient (MaxConnections cl) v)) ;;
  emit (AddCounter delta v) ;;
  ret v.

(** The connection handling of the proxy stores a new count; this is
    the environment of the tracker, not the tracker. *)
Definition storeCounter (n : N) (w : W) : W :=
  set_client (fun cl => mkClient (MaxConnections cl) (U64.wrap n)) w.
End WorldOps.

(** ** HTTP side *)

Record Server := mkServer { Addr : string }.
Record Response := mkResponse { status : N; body : string }.

Definition nl : string := String (ascii_of_nat 10) EmptyString.

(** ** Calls a prober, the proxy and its connections make *)

Inductive call :=
| Notify               (* startup finished *)
| QueryReady
| QueryLive
| ConnCount (n : N).   (* the proxy's connection handling sets the count *)

Record Api (W : Type) := mkApi {
  api_notify : M W unit;
  api_ready : M W bool;
  api_live : M W bool;
  api_conn : N -> W -> W
}.
Arguments mkApi {W}.
Arguments api_notify {W}.
Arguments api_ready {W}.
Arguments api_live {W}.
Arguments api_conn {W}.

Definition step {W} (api : Api W) (c : call) : M W unit :=
  match c with
  | Notify => api_notify api
  | QueryReady => _ <- api_ready api ;; ret tt
  | QueryLive => _ <- api_live api ;; ret tt
  | ConnCount n => modify (api_conn api n)
  end.

Fixpoint exec {W} (api : Api W) (cs : list call) : M W unit :=
  match cs with
  | [] => ret tt
  | c :: cs' => step api c ;; exec api cs'
  end.

(** ** src/unnamed/part_000 *)

Module Instance.

Record HC := mkHC {
  startedL : Mutex;   (* protects started *)
  started : bool;
  port : string;
  srv : Server
}.

Definition W := World HC unit.

Definition get_startedL (w : W) : Mutex := startedL (tracker w).
Definition set_startedL (m : Mutex) (w : W) : W :=
  set_tracker (fun h => mkHC m (started h) (port h) (srv h)) w.
Definition set_started (b : bool) (w : W) : W :=
  set_tracker (fun h => mkHC (startedL h) b (port h) (srv h)) w.

(** The object [NewHealthCheck] allocates. *)
Definition newHC (port : string) : HC :=
  mkHC Unlocked false port (mkServer (":" ++ port)%string).

(** [listen] stands for [net.Listen "tcp"]: whether the address can be
    bound.  On failure the constructor returns [nil, err]. *)
Definition NewHealthCheck (listen : string -> bool) (port : string)
  : option HC :=
  let hc := newHC port in
  if listen (Addr (srv hc)) then Some hc else None.

Definition NotifyStarted (hc : ptr) : M W unit :=
  deref hc ;;
  Lock get_startedL set_startedL ;;
  modify (set_started true) ;;
  Unlock get_startedL set_startedL.

Definition isLive : M W bool := ret true.

Definition isReady (c hc : ptr) : M W bool :=
  deref hc ;;
  Lock get_startedL set_startedL ;;
  started <- gets (fun w => started (tracker w)) ;;
  Unlock get_startedL set_startedL ;;
  if negb started then
    emit (Errorf "Readiness failed because proxy has not finished starting up." []) ;;
    ret false
  else
    full <- andM (m <- readMaxConnections c ;; ret (0 <? m))
                 (n <- LoadUint64 c ;;
                  m <- readMaxConnections c ;;
                  ret (m <=? n)) ;;
    if full then
      m <- readMaxConnections c ;;
      emit (Errorf "Readiness failed because proxy has reached the maximum connections limit (%d)." [m]) ;;
      ret false
    else ret true.

(** The two routes registered on the mux. *)
Definition readinessHandler (c hc : ptr) : M W Response :=
  ok <- isReady c hc ;;
  if negb ok then ret (mkResponse 500 "error")
  else ret (mkResponse 200 "ok").

Definition livenessHandler : M W Response :=
  ok <- isLive ;;
  if negb ok then ret (mkResponse 500 "error")
  else ret (mkResponse 200 "ok").

Definition api : Api W :=
  mkApi (NotifyStarted addr) (isReady addr addr) isLive storeCounter.

(** The world right after construction, bound to client [cl]. *)
Definition boot (port : string) (cl : Client) : W :=
  mkWorld (newHC port) tt cl [].

(** No goroutine is inside a critical section. *)
Definition quiescent (w : W) : Prop := startedL (tracker w) = Unlocked.

End Instance.


(** ** src/healthcheck/healthcheck.go *)

Module Global.

(** The three package-level mutexes. *)
Record Mutexes := mkMutexes {
  readinessMutex : Mutex;
  livenessMutex : Mutex;
  startupMutex : Mutex
}.

Record HC := mkHC {
  live : bool;
  ready : bool;
  started : bool;
  srv : Server
}.

Definition W := World HC Mutexes.

Definition get_readinessMutex (w : W) : Mutex := readinessMutex (pkg w).
Definition set_readinessMutex (m : Mutex) (w : W) : W :=
  set_pkg (fun g => mkMutexes m (livenessMutex g) (startupMutex g)) w.
Definition get_livenessMutex (w : W) : Mutex := livenessMutex (pkg w).
Definition set_livenessMutex (m : Mutex) (w : W) : W :=
  set_pkg (fun g => mkMutexes (readinessMutex g) m (startupMutex g)) w.
Definition get_startupMutex (w : W) : Mutex := startupMutex (pkg w).
Definition set_startupMutex (m : Mutex) (w : W) : W :=
  set_pkg (fun g => mkMutexes (readinessMutex g) (livenessMutex g) m) w.

Definition set_live (b : bool) (w : W) : W :=
  set_tracker (fun h => mkHC b (ready h) (started h) (srv h)) w.
Definition set_ready (b : bool) (w : W) : W :=
  set_tracker (fun h => mkHC (live h) b (started h) (srv h)) w.
Definition set_started (b : bool) (w : W) : W :=
  set_tracker (fun h => mkHC (live h) (ready h) b (srv h)) w.

(** The object [NewHealthCheck] allocates: [live] is set, the other
    flags keep their zero value. *)
Definition newHC : HC := mkHC true false false (mkServer ":8080").

Definition is_nil (p : ptr) : bool :=
  match p with
  | nil => true
  | addr => false
  end.

Definition NotifyReadyForConnections (hc : ptr) : M W unit :=
  if negb (is_nil hc) then
    Lock get_startupMutex set_startupMutex ;;
    deref hc ;;
    modify (set_started true) ;;
    Unlock get_startupMutex set_startupMutex
  else ret tt.

Definition livenessTest : M W bool := ret true.

Definition readinessTest (proxyClient hc : ptr) : M W bool :=
  Lock get_startupMutex set_startupMutex ;;
  deref hc ;;
  started <- gets (fun w => started (tracker w)) ;;
  if negb started then
    Unlock get_startupMutex set_startupMutex ;;
    ret false
  else
    Unlock get_startupMutex set_startupMutex ;;
    full <- andM (m <- readMaxConnections proxyClient ;; ret (0 <? m))
                 (n <- LoadUint64 proxyClient ;;
                  m <- readMaxConnections proxyClient ;;
                  ret (m <=? n)) ;;
    if full then ret false else ret true.

(** The two routes; each stores the test's answer in the object. *)
Definition readinessHandler (proxyClient hc : ptr) : M W Response :=
  Lock get_readinessMutex set_readinessMutex ;;
  r <- readinessTest proxyClient hc ;;
  deref hc ;;
  modify (set_ready r) ;;
  ok <- gets (fun w => ready (tracker w)) ;;
  if negb ok then
    Unlock get_readinessMutex set_readinessMutex ;;
    ret (mkResponse 500 ("error" ++ nl))
  else
    Unlock get_readinessMutex set_readinessMutex ;;
    ret (mkResponse 200 ("ok" ++ nl)).

Definition livenessHandler (hc : ptr) : M W Response :=
  Lock get_livenessMutex set_livenessMutex ;;
  r <- livenessTest ;;
  deref hc ;;
  modify (set_live r) ;;
  ok <- gets (fun w => live (tracker w)) ;;
  if negb ok then
    Unlock get_livenessMutex set_livenessMutex ;;
    ret (mkResponse 500 ("error" ++ nl))
  else
    Unlock get_livenessMutex set_livenessMutex ;;
    ret (mkResponse 200 ("ok" ++ nl)).

Definition api : Api W :=
  mkApi (NotifyReadyForConnections addr) (readinessTest addr addr)
        livenessTest storeCounter.

Definition boot (cl : Client) : W :=
  mkWorld newHC (mkMutexes Unlocked Unlocked Unlocked) cl [].

(** No goroutine holds the startup mutex. *)
Definition quiescent (w : W) : Prop := startupMutex (pkg w) = Unlocked.

End Global.

(** ** src/unnamed/part_001 *)

Module Draft.

Record HealthCheck := mkHealthCheck {
  live : bool;
  ready : bool;
  started : bool
}.

Definition W := World HealthCheck unit.

Definition set_live (b : bool) (w : W) : W :=
  set_tracker (fun h => mkHealthCheck b (ready h) (started h)) w.
Definition set_ready (b : bool) (w : W) : W :=
  set_tracker (fun h => mkHealthCheck (live h) b (started h)) w.
Definition set_started (b : bool) (w : W) : W :=
  set_tracker (fun h => mkHealthCheck (live h) (ready h) b) w.

Definition newHC : HealthCheck := mkHealthCheck true false false.

(** [defer d] followed by [body]: [d] runs when [body] returns, after
    the value to return has been computed. *)
Definition defer {A} (d : M W unit) (body : M W A) : M W A :=
  a <- body ;; d ;; ret a.

Definition NotifyReady (hc : ptr) : M W unit :=
  emit (Printf ("ready notification received" ++ nl)) ;;
  deref hc ;;
  modify (set_started true).

Definition livenessTest : M W bool :=
  emit (Printf ("running liveness test" ++ nl)) ;;
  ret true.

Definition readinessTest (proxyClient hc : ptr) : M W bool :=
  emit (Printf ("running readiness test" ++ nl)) ;;
  deref hc ;;
  started <- gets (fun w => started (tracker w)) ;;
  if negb started then
    emit (Printf ("readiness test failed because startup was not completed" ++ nl)) ;;
    ret false
  else
    active <- AddUint64 proxyClient 1 ;;
    defer (_ <- AddUint64 proxyClient (U64.lnot 0) ;; ret tt)
      (full <- andM (m <- readMaxConnections proxyClient ;; ret (0 <? m))
                    (m <- readMaxConnections proxyClient ;; ret (m <? active)) ;;
       if full then ret false else ret true).

Definition readinessHandler (proxyClient hc : ptr) : M W Response :=
  emit (Printf ("hit readiness endpoint" ++ nl)) ;;
  r <- readinessTest proxyClient hc ;;
  deref hc ;;
  modify (set_ready r) ;;
  ok <- gets (fun w => ready (tracker w)) ;;
  if ok then ret (mkResponse 200 ("ok" ++ nl))
  else ret (mkResponse 500 ("error" ++ nl)).

Definition livenessHandler (hc : ptr) : M W Response :=
  emit (Printf ("hit liveness endpoint" ++ nl)) ;;
  r <- livenessTest ;;
  deref hc ;;
  modify (set_live r) ;;
  ok <- gets (fun w => live (tracker w)) ;;
  if ok then ret (mkResponse 200 ("ok" ++ nl))
  else ret (mkResponse 500 ("error" ++ nl)).

Definition api : Api W :=
  mkApi (NotifyReady addr) (readinessTest addr addr) livenessTest storeCounter.

(** The world [InitHealthCheck] leaves: the object and its two
    messages on standard output. *)
Definition boot (cl : Client) : W :=
  mkWorld newHC tt cl
    [Printf ("initializing healthcheck" ++ nl); Printf ("endpoints created" ++ nl)].

End Draft.


(** ** Notions the properties are stated with *)

(** [c.MaxConnections > 0 && counter >= c.MaxConnections], the condition
    under which [isReady] and healthcheck.go's [readinessTest] refuse. *)
Definition at_limit (cl : Client) : bool :=
  (0 <? MaxConnections cl) && (MaxConnections cl <=? ConnectionsCounter cl).

Definition is_notify (c : call) : bool :=
  match c with
  | Notify => true
  | _ => false
  end.

(** A notification is among the calls. *)
Definition has_notify (cs : list call) : bool := existsb is_notify cs.

(** The boolean a test returned, if it returned. *)
Definition answer {W} (o : outcome W bool) : option bool :=
  match o with
  | Done b _ => Some b
  | _ => None
  end.

(** Build a tracker on a client with the given maximum, notify it, let
    the connection handling set the count to [n], and probe readiness. *)
Definition Instance_probe (port : string) (max n : N) : option bool :=
  match exec Instance.api [Notify; ConnCount n]
          (Instance.boot port (mkClient max 0)) with
  | Done _ w => answer (Instance.isReady addr addr w)
  | _ => None
  end.

Definition Global_probe (max n : N) : option bool :=
  match exec Global.api [Notify; ConnCount n]
          (Global.boot (mkClient max 0)) with
  | Done _ w => answer (Global.readinessTest addr addr w)
  | _ => None
  end.

Definition Draft_probe (max n : N) : option bool :=
  match exec Draft.api [Notify; ConnCount n]
          (Draft.boot (mkClient max 0)) with
  | Done _ w => answer (Draft.readinessTest addr addr w)
  | _ => None
  end.

(** Started trackers of the three revisions, ten connections allowed,
    three open. *)
Definition Instance_up : Instance.W :=
  mkWorld (Instance.mkHC Unlocked true "8090" (mkServer ":8090")) tt
    (mkClient 10 3) [].

Definition Global_up : Global.W :=
  mkWorld (Global.mkHC true false true (mkServer ":8080"))
    (Global.mkMutexes Unlocked Unlocked Unlocked) (mkClient 10 3) [].

Definition Draft_up : Draft.W :=
  mkWorld (Draft.mkHealthCheck true false true) tt (mkClient 10 3) [].

(** ** Counting effects and following the count *)

Definition is_load (e : event) : bool :=
  match e with
  | LoadCounter _ => true
  | _ => false
  end.

Definition is_errorf (e : event) : bool :=
  match e with
  | Errorf _ _ => true
  | _ => false
  end.

(** How many events of [h] satisfy [p]. *)
Definition count (p : event -> bool) (h : list event) : nat :=
  List.length (filter p h).

(** The count the connection handling stored last during [cs], and [c]
    when it stored none. *)
Fixpoint last_count (cs : list call) (c : N) : N :=
  match cs with
  | [] => c
  | ConnCount n :: cs' => last_count cs' (U64.wrap n)
  | _ :: cs' => last_count cs' c
  end.

(** The two answers of the routes of part_000, and of the two older
    revisions, which end the body with a newline. *)
Definition ok200 : Response := mkResponse 200 "ok".
Definition error500 : Response := mkResponse 500 "error".
Definition ok200_nl : Response := mkResponse 200 ("ok" ++ nl).
Definition error500_nl : Response := mkResponse 500 ("error" ++ nl).

(** A tracker of healthcheck.go while a readiness probe is inside its
    critical sections: readiness and startup mutexes held. *)
Definition Global_probing : Global.W :=
  mkWorld (Global.mkHC false false false (mkServer ":8080"))
    (Global.mkMutexes Locked Unlocked Locked) (mkClient 10 3) [].

(** The same while probes hold the readiness and liveness mutexes and
    the startup mutex is free. *)
Definition Global_probing_readiness : Global.W :=
  mkWorld (Global.mkHC true false false (mkServer ":8080"))
    (Global.mkMutexes Locked Locked Unlocked) (mkClient 10 3) [].

(** How many of the readiness probes of [cs] find the started flag up,
    [s] being the flag before the first call. *)
Fixpoint started_probes (cs : list call) (s : bool) : nat :=
  match cs with
  | [] => 0%nat
  | Notify :: cs' => started_probes cs' true
  | QueryReady :: cs' =>
      ((if s then 1 else 0) + started_probes cs' s)%nat
  | _ :: cs' => started_probes cs' s
  end.

(** * Properties *)

(** ** The limit test and uint64 facts *)

Lemma at_limit_false_iff (cl : Client) :
  at_limit cl = false <->
  MaxConnections cl = 0 \/ ConnectionsCounter cl < MaxConnections cl.
Proof.
  unfold at_limit.
  destruct (N.ltb_spec 0 (MaxConnections cl));
    destruct (N.leb_spec (MaxConnections cl) (ConnectionsCounter cl));
    simpl; split; intros; try discriminate; try reflexivity; lia.
Qed.

Lemma lnot_zero : U64.lnot 0 = U64.modulus - 1.
Proof. reflexivity. Qed.

Lemma modulus_value : U64.modulus = 18446744073709551616.
Proof. reflexivity. Qed.

(** Adding one and then all ones gives back a counter that fits. *)
Lemma add_one_then_ones (c : N) :
  U64.in_range c -> U64.add (U64.add c 1) (U64.lnot 0) = c.
Proof.
  unfold U64.in_range, U64.add, U64.wrap. rewrite lnot_zero, modulus_value.
  intros Hc.
  destruct (N.eq_dec c 18446744073709551615) as [-> | Hne].
  - reflexivity.
  - rewrite (N.mod_small (c + 1)) by lia.
    replace (c + 1 + (18446744073709551616 - 1))
      with (c + 1 * 18446744073709551616) by lia.
    rewrite N.Div0.mod_add. apply N.mod_small. lia.
Qed.

Lemma add_one_no_wrap (c : N) :
  c < U64.modulus - 1 -> U64.add c 1 = c + 1.
Proof.
  unfold U64.add, U64.wrap. rewrite modulus_value. intros Hc.
  apply N.mod_small. lia.
Qed.

(** ** Sequences of calls *)



(** What a run of calls does to a boolean [flag] of the world that the
    notification raises and every other call keeps, and to a [frame]
    no call touches, while an invariant [inv] keeps every call from
    parking or panicking. *)
Section Harness.
Variable W : Type.
Variable api : Api W.
Variable inv : W -> Prop.
Variable flag : W -> bool.
Variable F : Type.
Variable frame : W -> F.

Hypothesis notify_ok : forall w, inv w ->
  exists w', api_notify api w = Done tt w' /\ inv w' /\ flag w' = true
             /\ frame w' = frame w.
Hypothesis ready_ok : forall w, inv w ->
  exists b w', api_ready api w = Done b w' /\ inv w' /\ flag w' = flag w
               /\ frame w' = frame w.
Hypothesis live_ok : forall w, inv w ->
  exists b w', api_live api w = Done b w' /\ inv w' /\ flag w' = flag w
               /\ frame w' = frame w.
Hypothesis conn_ok : forall n w, inv w ->
  inv (api_conn api n w) /\ flag (api_conn api n w) = flag w
  /\ frame (api_conn api n w) = frame w.

Lemma step_flag (c : call) (w : W) :
  inv w ->
  exists w', step api c w = Done tt w' /\ inv w'
             /\ flag w' = (flag w || is_notify c)%bool
             /\ frame w' = frame w.
Proof.
  intros Hw. destruct c; simpl.
  - destruct (notify_ok w Hw) as (w' & E & I & Fl & Fr).
    exists w'. rewrite Fl, orb_true_r. auto.
  - destruct (ready_ok w Hw) as (b & w' & E & I & Fl & Fr).
    exists w'. unfold bind, ret. rewrite E, Fl, orb_false_r. auto.
  - destruct (live_ok w Hw) as (b & w' & E & I & Fl & Fr).
    exists w'. unfold bind, ret. rewrite E, Fl, orb_false_r. auto.
  - destruct (conn_ok n w Hw) as (I & Fl & Fr).
    exists (api_conn api n w). unfold modify. rewrite Fl, orb_false_r. auto.
Qed.

Lemma exec_flag (cs : list call) : forall w,
  inv w ->
  exists w', exec api cs w = Done tt w' /\ inv w'
             /\ flag w' = (flag w || has_notify cs)%bool
             /\ frame w' = frame w.
Proof.
  induction cs as [| c cs IH]; intros w Hw; simpl.
  - exists w. unfold ret. rewrite orb_false_r. auto.
  - destruct (step_flag c w Hw) as (w1 & E1 & I1 & Fl1 & Fr1).
    destruct (IH w1 I1) as (w2 & E2 & I2 & Fl2 & Fr2).
    exists w2. unfold bind. rewrite E1, E2, Fl2, Fl1, Fr2, Fr1.
    rewrite orb_assoc. auto.
Qed.
End Harness.

(** Unfolding a Go function [f] down to the state it passes. *)
Ltac run_go f :=
  unfold f, andM, bind, ret, gets, modify, panic, deref, Lock, Unlock,
    readMaxConnections, LoadUint64, AddUint64, emit,
    set_tracker, set_pkg, set_client;
  simpl.

(** ** part_000 *)

Lemma Instance_NotifyStarted_done (w : Instance.W) :
  Instance.quiescent w ->
  Instance.NotifyStarted addr w = Done tt (Instance.set_started true w).
Proof.
  destruct w as [[l s p v] g cl h]. unfold Instance.quiescent. simpl.
  intros ->. reflexivity.
Qed.

Lemma Instance_isReady_spec (w : Instance.W) :
  Instance.quiescent w ->
  exists h,
    Instance.isReady addr addr w
    = Done (Instance.started (tracker w) && negb (at_limit (client w)))
           (mkWorld (tracker w) (pkg w) (client w) (history w ++ h))
    /\ reads_only h = true.
Proof.
  destruct w as [[l s p v] g [m n] h]. unfold Instance.quiescent. simpl.
  intros ->. unfold at_limit. simpl.
  destruct s; [destruct (0 <? m) eqn:Em; [destruct (m <=? n) eqn:En |] |].
  - exists [LoadCounter n;
            Errorf "Readiness failed because proxy has reached the maximum connections limit (%d)." [m]].
    split; [| reflexivity]. run_go Instance.isReady.
    rewrite Em. simpl. rewrite En. simpl. rewrite <- app_assoc. reflexivity.
  - exists [LoadCounter n].
    split; [| reflexivity]. run_go Instance.isReady.
    rewrite Em. simpl. rewrite En. reflexivity.
  - exists []. split; [| reflexivity]. run_go Instance.isReady.
    rewrite Em. simpl. rewrite app_nil_r. reflexivity.
  - exists [Errorf "Readiness failed because proxy has not finished starting up." []].
    split; reflexivity.
Qed.

Lemma Instance_isLive_done (w : Instance.W) : Instance.isLive w = Done true w.
Proof. reflexivity. Qed.

(** Without a tracker to point at, [NotifyStarted] panics. *)
Lemma Instance_NotifyStarted_nil (w : Instance.W) :
  Instance.NotifyStarted nil w = Panic NilDereference.
Proof. reflexivity. Qed.


Lemma Instance_exec (cs : list call) (w : Instance.W) :
  Instance.quiescent w ->
  exists w',
    exec Instance.api cs w = Done tt w' /\ Instance.quiescent w'
    /\ Instance.started (tracker w')
       = (Instance.started (tracker w) || has_notify cs)%bool
    /\ MaxConnections (client w') = MaxConnections (client w).
Proof.
  apply (exec_flag Instance.W Instance.api Instance.quiescent
           (fun w => Instance.started (tracker w))
           N (fun w => MaxConnections (client w))).
  - intros w0 H0. exists (Instance.set_started true w0).
    split; [apply Instance_NotifyStarted_done; exact H0 |].
    destruct w0 as [[l s p v] g cl h]. simpl in *. auto.
  - intros w0 H0. destruct (Instance_isReady_spec w0 H0) as (h & E & _).
    eexists. eexists. split; [exact E |]. simpl. auto.
  - intros w0 H0. exists true, w0. simpl. auto.
  - intros n w0 H0. destruct w0 as [[l s p v] g cl h]. simpl in *. auto.
Qed.

(** ** healthcheck.go *)

Lemma Global_Notify_done (w : Global.W) :
  Global.quiescent w ->
  Global.NotifyReadyForConnections addr w
  = Done tt (Global.set_started true w).
Proof.
  destruct w as [t [r l s] cl h]. unfold Global.quiescent. simpl.
  intros ->. reflexivity.
Qed.

Lemma Global_readinessTest_spec (w : Global.W) :
  Global.quiescent w ->
  exists h,
    Global.readinessTest addr addr w
    = Done (Global.started (tracker w) && negb (at_limit (client w)))
           (mkWorld (tracker w) (pkg w) (client w) (history w ++ h))
    /\ reads_only h = true.
Proof.
  destruct w as [[lv rd s v] [mr ml ms] [m n] h]. unfold Global.quiescent.
  simpl. intros ->. unfold at_limit. simpl.
  destruct s; [destruct (0 <? m) eqn:Em; [destruct (m <=? n) eqn:En |] |].
  - exists [LoadCounter n]. split; [| reflexivity].
    run_go Global.readinessTest. rewrite Em. simpl. rewrite En. reflexivity.
  - exists [LoadCounter n]. split; [| reflexivity].
    run_go Global.readinessTest. rewrite Em. simpl. rewrite En. reflexivity.
  - exists []. split; [| reflexivity]. run_go Global.readinessTest.
    rewrite Em. simpl. rewrite app_nil_r. reflexivity.
  - exists []. split; [| reflexivity]. run_go Global.readinessTest.
    rewrite app_nil_r. reflexivity.
Qed.

Lemma Global_livenessTest_done (w : Global.W) :
  Global.livenessTest w = Done true w.
Proof. reflexivity. Qed.


Lemma Global_exec (cs : list call) (w : Global.W) :
  Global.quiescent w ->
  exists w',
    exec Global.api cs w = Done tt w' /\ Global.quiescent w'
    /\ Global.started (tracker w')
       = (Global.started (tracker w) || has_notify cs)%bool
    /\ MaxConnections (client w') = MaxConnections (client w).
Proof.
  apply (exec_flag Global.W Global.api Global.quiescent
           (fun w => Global.started (tracker w))
           N (fun w => MaxConnections (client w))).
  - intros w0 H0. exists (Global.set_started true w0).
    split; [apply Global_Notify_done; exact H0 |].
    destruct w0 as [[lv rd s v] [mr ml ms] cl h]. simpl in *. auto.
  - intros w0 H0. destruct (Global_readinessTest_spec w0 H0) as (h & E & _).
    eexists. eexists. split; [exact E |]. simpl. auto.
  - intros w0 H0. exists true, w0. simpl. auto.
  - intros n w0 H0. destruct w0 as [[lv rd s v] [mr ml ms] cl h].
    simpl in *. auto.
Qed.

(** ** part_001 *)

(** Increment, compare with [>], decrement: what the first revision
    answers once started, and the three effects it leaves. *)
Lemma Draft_readinessTest_started (w : Draft.W) :
  Draft.started (tracker w) = true ->
  let m := MaxConnections (client w) in
  let n := ConnectionsCounter (client w) in
  let active := U64.add n 1 in
  let back := U64.add active (U64.lnot 0) in
  Draft.readinessTest addr addr w
  = Done (negb ((0 <? m) && (m <? active)))
         (mkWorld (tracker w) (pkg w) (mkClient m back)
            (history w ++ [Printf ("running readiness test" ++ nl);
                           AddCounter 1 active;
                           AddCounter (U64.lnot 0) back])).
Proof.
  destruct w as [[lv rd s] g [m n] h]. simpl. intros ->.
  run_go Draft.readinessTest. unfold Draft.defer. run_go Draft.readinessTest.
  destruct (0 <? m) eqn:Em; simpl;
    [destruct (m <? U64.add n 1) eqn:En |]; simpl;
    rewrite <- !app_assoc; reflexivity.
Qed.

Lemma Draft_readinessTest_not_started (w : Draft.W) :
  Draft.started (tracker w) = false ->
  Draft.readinessTest addr addr w
  = Done false
         (mkWorld (tracker w) (pkg w) (client w)
            (history w ++ [Printf ("running readiness test" ++ nl);
                           Printf ("readiness test failed because startup was not completed" ++ nl)])).
Proof.
  destruct w as [[lv rd s] g cl h]. simpl. intros ->.
  run_go Draft.readinessTest. rewrite <- app_assoc. reflexivity.
Qed.

(** ** The readiness contract *)


(** With a positive maximum, part_000 and healthcheck.go refuse as soon
    as the count is at the maximum or above it. *)
Lemma at_capacity_not_ready (wi : Instance.W) (wg : Global.W) :
  Instance.quiescent wi -> Instance.started (tracker wi) = true ->
  0 < MaxConnections (client wi) ->
  MaxConnections (client wi) <= ConnectionsCounter (client wi) ->
  Global.quiescent wg -> Global.started (tracker wg) = true ->
  0 < MaxConnections (client wg) ->
  MaxConnections (client wg) <= ConnectionsCounter (client wg) ->
  (exists w', Instance.isReady addr addr wi = Done false w')
  /\ (exists w', Global.readinessTest addr addr wg = Done false w').
Proof.
  intros Qi Si Mi Ci Qg Sg Mg Cg. split.
  - destruct (Instance_isReady_spec wi Qi) as (h & E & _).
    eexists. rewrite E, Si. unfold at_limit.
    apply N.ltb_lt in Mi. apply N.leb_le in Ci. rewrite Mi, Ci. reflexivity.
  - destruct (Global_readinessTest_spec wg Qg) as (h & E & _).
    eexists. rewrite E, Sg. unfold at_limit.
    apply N.ltb_lt in Mg. apply N.leb_le in Cg. rewrite Mg, Cg. reflexivity.
Qed.

Lemma limit_ten_answers (port : string) :
  (Instance_probe port 10 9 = Some true
   /\ Instance_probe port 10 10 = Some false
   /\ Instance_probe port 10 11 = Some false)
  /\ (Global_probe 10 9 = Some true
      /\ Global_probe 10 10 = Some false
      /\ Global_probe 10 11 = Some false)
  /\ (Draft_probe 10 9 = Some true
      /\ Draft_probe 10 10 = Some false
      /\ Draft_probe 10 11 = Some false).
Proof. repeat split; reflexivity. Qed.

(** The first revision agrees while the maximum is below the largest
    uint64. *)
Lemma Draft_at_capacity_not_ready (w : Draft.W) :
  Draft.started (tracker w) = true ->
  0 < MaxConnections (client w) ->
  MaxConnections (client w) < U64.modulus - 1 ->
  ConnectionsCounter (client w) = MaxConnections (client w) ->
  exists w', Draft.readinessTest addr addr w = Done false w'.
Proof.
  intros Hs Hm Hlt Hc. rewrite (Draft_readinessTest_started w Hs).
  eexists. rewrite Hc, add_one_no_wrap by exact Hlt.
  apply N.ltb_lt in Hm. rewrite Hm.
  replace (MaxConnections (client w) <? MaxConnections (client w) + 1)
    with true by (symmetry; apply N.ltb_lt; lia).
  reflexivity.
Qed.

(** C2.  The first revision at the largest maximum: started, with
    MaxConnections = ConnectionsCounter = 2^64 - 1, the increment wraps
    to zero, zero is not above the maximum, and [readinessTest] answers
    true although the count equals the maximum. *)
Theorem draft_ready_at_largest_limit :
  Draft_probe 18446744073709551615 18446744073709551615 = Some true
  /\ Instance_probe "8090" 18446744073709551615 18446744073709551615
     = Some false
  /\ Global_probe 18446744073709551615 18446744073709551615 = Some false.
Proof. repeat split; reflexivity. Qed.

(** ** Who writes the connection counter *)

(** part_000 and healthcheck.go leave the client as it was and issue no
    write to the counter. *)
Lemma load_revisions_only_read (wi : Instance.W) (wg : Global.W) :
  Instance.quiescent wi -> Global.quiescent wg ->
  (exists b w' h,
      Instance.isReady addr addr wi = Done b w'
      /\ client w' = client wi
      /\ history w' = history wi ++ h /\ reads_only h = true)
  /\ (exists b w' h,
         Global.readinessTest addr addr wg = Done b w'
         /\ client w' = client wg
         /\ history w' = history wg ++ h /\ reads_only h = true).
Proof.
  intros Qi Qg. split.
  - destruct (Instance_isReady_spec wi Qi) as (h & E & R).
    eexists. eexists. exists h. split; [exact E |]. simpl. auto.
  - destruct (Global_readinessTest_spec wg Qg) as (h & E & R).
    eexists. eexists. exists h. split; [exact E |]. simpl. auto.
Qed.

(** Once started, every readiness test of the first revision writes the
    counter twice. *)
Lemma Draft_readinessTest_writes (w : Draft.W) :
  Draft.started (tracker w) = true ->
  exists b w' h,
    Draft.readinessTest addr addr w = Done b w'
    /\ history w' = history w ++ h /\ reads_only h = false.
Proof.
  intros Hs. rewrite (Draft_readinessTest_started w Hs).
  eexists. eexists. eexists. split; [reflexivity |]. simpl.
  split; reflexivity.
Qed.

(** C3.  The first revision, started, with a maximum of ten and nine
    connections: [readinessTest] answers true and gives the counter
    back at nine, but it got there by storing ten and then nine; the
    effects of the call are not reads only. *)
Theorem draft_readiness_writes_counter :
  exists w w',
    exec Draft.api [Notify; ConnCount 9] (Draft.boot (mkClient 10 0))
    = Done tt w
    /\ Draft.readinessTest addr addr w = Done true w'
    /\ client w' = client w
    /\ history w'
       = history w ++ [Printf ("running readiness test" ++ nl);
                       AddCounter 1 10;
                       AddCounter 18446744073709551615 9]
    /\ reads_only [Printf ("running readiness test" ++ nl);
                   AddCounter 1 10;
                   AddCounter 18446744073709551615 9] = false.
Proof.
  eexists. eexists. split; [reflexivity |]. split; [reflexivity |].
  repeat split; reflexivity.
Qed.

(** ** The started flag *)

(** C4.  From any state in which the flag is up, every sequence of
    notifications, queries and connection events runs to its end and
    leaves the flag up, in part_000 and in healthcheck.go. *)
Theorem started_never_reverts
  (cs : list call) (wi : Instance.W) (wg : Global.W)
  (Qi : Instance.quiescent wi) (Si : Instance.started (tracker wi) = true)
  (Qg : Global.quiescent wg) (Sg : Global.started (tracker wg) = true) :
  (exists w', exec Instance.api cs wi = Done tt w'
              /\ Instance.started (tracker w') = true)
  /\ (exists w', exec Global.api cs wg = Done tt w'
                 /\ Global.started (tracker w') = true).
Proof.
  split.
  - destruct (Instance_exec cs wi Qi) as (w' & E & _ & Hs & _).
    exists w'. split; [exact E |]. rewrite Hs, Si. reflexivity.
  - destruct (Global_exec cs wg Qg) as (w' & E & _ & Hs & _).
    exists w'. split; [exact E |]. rewrite Hs, Sg. reflexivity.
Qed.

Lemma started_never_reverts_witness :
  (exists w', exec Instance.api [QueryReady; Notify; ConnCount 12; QueryLive]
                Instance_up = Done tt w'
              /\ Instance.started (tracker w') = true)
  /\ (exists w', exec Global.api [QueryReady; Notify; ConnCount 12; QueryLive]
                   Global_up = Done tt w'
                 /\ Global.started (tracker w') = true).
Proof.
  apply (started_never_reverts
           [QueryReady; Notify; ConnCount 12; QueryLive]
           Instance_up Global_up); reflexivity.
Defined.



(** A notification in a state whose flag is already up changes nothing. *)
Lemma Instance_set_started_again (w : Instance.W) :
  Instance.set_started true (Instance.set_started true w)
  = Instance.set_started true w.
Proof. destruct w as [[l s p v] g cl h]. reflexivity. Qed.

Lemma Global_set_started_again (w : Global.W) :
  Global.set_started true (Global.set_started true w)
  = Global.set_started true w.
Proof. destruct w as [[lv rd s v] g cl h]. reflexivity. Qed.

Lemma Instance_times_notify (n : nat) : forall w,
  Instance.quiescent w ->
  times (S n) (Instance.NotifyStarted addr) w
  = Done tt (Instance.set_started true w).
Proof.
  induction n as [| n IH]; intros w Hq.
  - simpl. unfold bind. rewrite Instance_NotifyStarted_done by exact Hq.
    reflexivity.
  - change (times (S (S n)) (Instance.NotifyStarted addr) w)
      with (bind (Instance.NotifyStarted addr)
              (fun _ => times (S n) (Instance.NotifyStarted addr)) w).
    unfold bind at 1. rewrite Instance_NotifyStarted_done by exact Hq.
    rewrite IH.
    + rewrite Instance_set_started_again. reflexivity.
    + destruct w as [[l s p v] g cl h]. exact Hq.
Qed.

Lemma Global_times_notify (n : nat) : forall w,
  Global.quiescent w ->
  times (S n) (Global.NotifyReadyForConnections addr) w
  = Done tt (Global.set_started true w).
Proof.
  induction n as [| n IH]; intros w Hq.
  - simpl. unfold bind. rewrite Global_Notify_done by exact Hq.
    reflexivity.
  - change (times (S (S n)) (Global.NotifyReadyForConnections addr) w)
      with (bind (Global.NotifyReadyForConnections addr)
              (fun _ => times (S n) (Global.NotifyReadyForConnections addr))
              w).
    unfold bind at 1. rewrite Global_Notify_done by exact Hq.
    rewrite IH.
    + rewrite Global_set_started_again. reflexivity.
    + destruct w as [[lv rd s v] [mr ml ms] cl h]. exact Hq.
Qed.

(** C6.  One notification or several in a row: the world afterwards is
    the same, flag up and nothing else touched, so every later readiness
    test sees the same state.  For [NotifyStarted] of part_000 and
    [NotifyReadyForConnections] of healthcheck.go. *)
Theorem notify_idempotent
  (n : nat) (wi : Instance.W) (wg : Global.W)
  (Qi : Instance.quiescent wi) (Qg : Global.quiescent wg) :
  (exists w1,
      Instance.NotifyStarted addr wi = Done tt w1
      /\ times (S n) (Instance.NotifyStarted addr) wi = Done tt w1
      /\ Instance.started (tracker w1) = true)
  /\ (exists w1,
         Global.NotifyReadyForConnections addr wg = Done tt w1
         /\ times (S n) (Global.NotifyReadyForConnections addr) wg
            = Done tt w1
         /\ Global.started (tracker w1) = true).
Proof.
  split.
  - exists (Instance.set_started true wi).
    split; [apply Instance_NotifyStarted_done; exact Qi |].
    split; [apply Instance_times_notify; exact Qi |].
    destruct wi as [[l s p v] g cl h]. reflexivity.
  - exists (Global.set_started true wg).
    split; [apply Global_Notify_done; exact Qg |].
    split; [apply Global_times_notify; exact Qg |].
    destruct wg as [[lv rd s v] g cl h]. reflexivity.
Qed.

Lemma notify_idempotent_witness :
  (exists w1,
      Instance.NotifyStarted addr (Instance.boot "8090" (mkClient 10 3))
      = Done tt w1
      /\ times 4 (Instance.NotifyStarted addr)
           (Instance.boot "8090" (mkClient 10 3)) = Done tt w1
      /\ Instance.started (tracker w1) = true)
  /\ (exists w1,
         Global.NotifyReadyForConnections addr (Global.boot (mkClient 10 3))
         = Done tt w1
         /\ times 4 (Global.NotifyReadyForConnections addr)
              (Global.boot (mkClient 10 3)) = Done tt w1
         /\ Global.started (tracker w1) = true).
Proof.
  apply (notify_idempotent 3 (Instance.boot "8090" (mkClient 10 3))
           (Global.boot (mkClient 10 3))); reflexivity.
Defined.

(** ** Liveness *)

(** C7.  The liveness test answers true in every state: whatever the
    flag, the count, the maximum or the mutexes, and so in every state
    a run of calls can reach. *)
Theorem liveness_always_true
  (wi : Instance.W) (wg : Global.W) (wd : Draft.W) :
  Instance.isLive wi = Done true wi
  /\ Global.livenessTest wg = Done true wg
  /\ (exists w', Draft.livenessTest wd = Done true w'
                 /\ tracker w' = tracker wd /\ client w' = client wd).
Proof.
  split; [reflexivity |]. split; [reflexivity |].
  eexists. split; [reflexivity |]. split; reflexivity.
Qed.

(** ** Queries and the tracker's own state *)

(** C8.  Both queries finish with a boolean and leave the tracker as it
    was, flag and mutex included, and so does every call other than the
    notification; the notification is the one call that writes the flag.
    For part_000, and for the test functions of healthcheck.go. *)
Theorem queries_leave_tracker
  (wi : Instance.W) (wg : Global.W)
  (Qi : Instance.quiescent wi) (Qg : Global.quiescent wg) :
  (exists b w', Instance.isReady addr addr wi = Done b w'
                /\ tracker w' = tracker wi /\ pkg w' = pkg wi)
  /\ (exists b w', Instance.isLive wi = Done b w'
                   /\ tracker w' = tracker wi /\ pkg w' = pkg wi)
  /\ (forall c, is_notify c = false ->
        exists w', step Instance.api c wi = Done tt w'
                   /\ tracker w' = tracker wi)
  /\ (exists b w', Global.readinessTest addr addr wg = Done b w'
                   /\ tracker w' = tracker wg /\ pkg w' = pkg wg)
  /\ (exists b w', Global.livenessTest wg = Done b w'
                   /\ tracker w' = tracker wg /\ pkg w' = pkg wg).
Proof.
  destruct (Instance_isReady_spec wi Qi) as (hi & Ei & _).
  destruct (Global_readinessTest_spec wg Qg) as (hg & Eg & _).
  split; [eexists; eexists; split; [exact Ei | split; reflexivity] |].
  split; [exists true, wi; repeat split |].
  split.
  - intros c Hc. destruct c; try discriminate Hc; simpl.
    + unfold bind. rewrite Ei. eexists. split; reflexivity.
    + exists wi. split; reflexivity.
    + eexists. split; [reflexivity |].
      destruct wi as [[l s p v] g cl h]. reflexivity.
  - split; [eexists; eexists; split; [exact Eg | split; reflexivity] |].
    exists true, wg. repeat split.
Qed.

Lemma queries_leave_tracker_witness :
  (exists b w', Instance.isReady addr addr Instance_up = Done b w'
                /\ tracker w' = tracker Instance_up
                /\ pkg w' = pkg Instance_up)
  /\ (exists b w', Instance.isLive Instance_up = Done b w'
                   /\ tracker w' = tracker Instance_up
                   /\ pkg w' = pkg Instance_up)
  /\ (forall c, is_notify c = false ->
        exists w', step Instance.api c Instance_up = Done tt w'
                   /\ tracker w' = tracker Instance_up)
  /\ (exists b w', Global.readinessTest addr addr Global_up = Done b w'
                   /\ tracker w' = tracker Global_up
                   /\ pkg w' = pkg Global_up)
  /\ (exists b w', Global.livenessTest Global_up = Done b w'
                   /\ tracker w' = tracker Global_up
                   /\ pkg w' = pkg Global_up).
Proof.
  apply (queries_leave_tracker Instance_up Global_up); reflexivity.
Defined.

(** In healthcheck.go it is the route, not the test, that stores the
    answer in the object. *)
Lemma Global_readinessHandler_stores :
  exists w',
    Global.readinessHandler addr addr Global_up
    = Done (mkResponse 200 ("ok" ++ nl)) w'
    /\ Global.ready (tracker Global_up) = false
    /\ Global.ready (tracker w') = true
    /\ Global.started (tracker w') = Global.started (tracker Global_up).
Proof. eexists. repeat split. Qed.

(** ** The nil receiver *)

(** C10.  [NotifyReadyForConnections] on a nil receiver returns at once
    and leaves the whole world as it was, flag and mutexes included; it
    neither panics nor parks, even while the startup mutex is held, and
    so does any number of such calls in a row. *)
Theorem notify_on_nil_is_noop (n : nat) (w : Global.W) :
  Global.NotifyReadyForConnections nil w = Done tt w
  /\ times n (Global.NotifyReadyForConnections nil) w = Done tt w.
Proof.
  split; [reflexivity |].
  induction n as [| n IH]; simpl.
  - reflexivity.
  - unfold bind. simpl. exact IH.
Qed.

(** ** Increment-then-compare against load-then-compare *)

(** While the increment does not wrap, [m < c + 1] and [m <= c] agree. *)
Lemma above_after_increment (m c : N) :
  c < U64.modulus - 1 -> (m <? U64.add c 1) = (m <=? c).
Proof.
  intros Hc. rewrite add_one_no_wrap by exact Hc.
  destruct (N.ltb_spec m (c + 1)); destruct (N.leb_spec m c);
    try reflexivity; lia.
Qed.

(** C9.  The two tests on a started tracker with count 2^64 - 1 and
    maximum one: the increment of the first revision wraps to zero and
    its [readinessTest] answers true, while [isReady] of part_000, whose
    test is [m > 0 && c >= m], answers false; the two answers differ. *)
Lemma draft_differs_at_wrap :
  Draft_probe 1 18446744073709551615 = Some true
  /\ Instance_probe "8090" 1 18446744073709551615 = Some false
  /\ Draft_probe 1 18446744073709551615
     <> Instance_probe "8090" 1 18446744073709551615.
Proof.
  split; [reflexivity |]. split; [reflexivity |].
  intros H. vm_compute in H. discriminate H.
Qed.

(** Away from the wrap the two tests agree.  On a started tracker whose
    count fits in a uint64, the first revision's [readinessTest]
    finishes and leaves the client as it found it; and when the maximum
    is zero or the count is below 2^64 - 1, so that the increment does
    not wrap, its answer is the answer of part_000's [isReady] on the
    same client, the negation of [m > 0 && c >= m]. *)
Theorem draft_refines_isReady
  (wd : Draft.W) (wi : Instance.W)
  (Sd : Draft.started (tracker wd) = true)
  (Si : Instance.started (tracker wi) = true)
  (Qi : Instance.quiescent wi)
  (Same : client wd = client wi)
  (Fit : U64.in_range (ConnectionsCounter (client wd))) :
  exists b wd',
    Draft.readinessTest addr addr wd = Done b wd'
    /\ client wd' = client wd
    /\ tracker wd' = tracker wd
    /\ (MaxConnections (client wd) = 0
        \/ ConnectionsCounter (client wd) < U64.modulus - 1 ->
        b = negb (at_limit (client wd))
        /\ exists wi', Instance.isReady addr addr wi = Done b wi'
                       /\ client wi' = client wi).
Proof.
  rewrite (Draft_readinessTest_started wd Sd).
  eexists. eexists. split; [reflexivity |]. simpl.
  split.
  - rewrite add_one_then_ones by exact Fit. destruct (client wd). reflexivity.
  - split; [reflexivity |]. intros Hok.
    assert (E : negb ((0 <? MaxConnections (client wd))
                      && (MaxConnections (client wd)
                          <? U64.add (ConnectionsCounter (client wd)) 1))
                = negb (at_limit (client wd))).
    { unfold at_limit. destruct Hok as [H0 | Hlt].
      - rewrite H0. reflexivity.
      - rewrite above_after_increment by exact Hlt. reflexivity. }
    split; [exact E |].
    destruct (Instance_isReady_spec wi Qi) as (h & Ei & _).
    rewrite Ei, Si, E, Same. simpl.
    eexists. split; reflexivity.
Qed.

Lemma draft_refines_isReady_witness :
  exists b wd',
    Draft.readinessTest addr addr Draft_up = Done b wd'
    /\ client wd' = client Draft_up
    /\ tracker wd' = tracker Draft_up
    /\ (MaxConnections (client Draft_up) = 0
        \/ ConnectionsCounter (client Draft_up) < U64.modulus - 1 ->
        b = negb (at_limit (client Draft_up))
        /\ exists wi', Instance.isReady addr addr Instance_up = Done b wi'
                       /\ client wi' = client Instance_up).
Proof.
  apply (draft_refines_isReady Draft_up Instance_up); reflexivity.
Defined.

(** * Further properties of the three revisions *)

(** ** Effects of a readiness test, event by event *)

Lemma ready_bool_iff (s : bool) (cl : Client) :
  (s && negb (at_limit cl))%bool = true <->
  s = true
  /\ (MaxConnections cl = 0 \/ ConnectionsCounter cl < MaxConnections cl).
Proof.
  rewrite andb_true_iff, negb_true_iff, at_limit_false_iff. tauto.
Qed.

(** The events one call of [isReady] adds, read off its branches. *)
Lemma Instance_isReady_effects (w : Instance.W) :
  Instance.quiescent w ->
  let m := MaxConnections (client w) in
  let n := ConnectionsCounter (client w) in
  Instance.isReady addr addr w
  = Done (Instance.started (tracker w) && negb (at_limit (client w)))
      (mkWorld (tracker w) (pkg w) (client w)
         (history w ++
            if Instance.started (tracker w) then
              if 0 <? m then
                LoadCounter n ::
                  (if m <=? n then
                     [Errorf "Readiness failed because proxy has reached the maximum connections limit (%d)." [m]]
                   else [])
              else []
            else [Errorf "Readiness failed because proxy has not finished starting up." []])).
Proof.
  destruct w as [[l s p v] g [m n] h]. unfold Instance.quiescent. simpl.
  intros ->. unfold at_limit. simpl.
  destruct s; [destruct (0 <? m) eqn:Em; [destruct (m <=? n) eqn:En |] |];
    run_go Instance.isReady; rewrite ?Em; simpl; rewrite ?En; simpl;
    rewrite <- ?app_assoc, ?app_nil_r; reflexivity.
Qed.

Lemma Global_readinessTest_effects (w : Global.W) :
  Global.quiescent w ->
  let m := MaxConnections (client w) in
  let n := ConnectionsCounter (client w) in
  Global.readinessTest addr addr w
  = Done (Global.started (tracker w) && negb (at_limit (client w)))
      (mkWorld (tracker w) (pkg w) (client w)
         (history w ++
            if Global.started (tracker w) then
              if 0 <? m then [LoadCounter n] else []
            else [])).
Proof.
  destruct w as [[lv rd s v] [mr ml ms] [m n] h]. unfold Global.quiescent.
  simpl. intros ->. unfold at_limit. simpl.
  destruct s; [destruct (0 <? m) eqn:Em; [destruct (m <=? n) eqn:En |] |];
    run_go Global.readinessTest; rewrite ?Em; simpl; rewrite ?En; simpl;
    rewrite ?app_nil_r; reflexivity.
Qed.

(** X6.  The counter is loaded only when it can matter: one call of
    [isReady] (part_000) or [readinessTest] (healthcheck.go) issues
    exactly one atomic load when the tracker is started and a positive
    maximum is configured, and none otherwise; it never issues a write. *)
Theorem counter_loaded_only_under_limit
  (wi : Instance.W) (wg : Global.W)
  (Qi : Instance.quiescent wi) (Qg : Global.quiescent wg) :
  (exists b w' h,
      Instance.isReady addr addr wi = Done b w'
      /\ history w' = history wi ++ h
      /\ count is_load h
         = (if (Instance.started (tracker wi)
                && (0 <? MaxConnections (client wi)))%bool
            then 1%nat else 0%nat)
      /\ count is_write h = 0%nat)
  /\ (exists b w' h,
         Global.readinessTest addr addr wg = Done b w'
         /\ history w' = history wg ++ h
         /\ count is_load h
            = (if (Global.started (tracker wg)
                   && (0 <? MaxConnections (client wg)))%bool
               then 1%nat else 0%nat)
         /\ count is_write h = 0%nat).
Proof.
  split.
  - rewrite (Instance_isReady_effects wi Qi).
    eexists. eexists. eexists. split; [reflexivity |]. simpl.
    split; [reflexivity |].
    destruct (Instance.started (tracker wi));
      destruct (0 <? MaxConnections (client wi));
      try destruct (MaxConnections (client wi)
                    <=? ConnectionsCounter (client wi));
      split; reflexivity.
  - rewrite (Global_readinessTest_effects wg Qg).
    eexists. eexists. eexists. split; [reflexivity |]. simpl.
    split; [reflexivity |].
    destruct (Global.started (tracker wg));
      destruct (0 <? MaxConnections (client wg)); split; reflexivity.
Qed.

Lemma counter_loaded_only_under_limit_witness :
  (exists b w' h,
      Instance.isReady addr addr Instance_up = Done b w'
      /\ history w' = history Instance_up ++ h
      /\ count is_load h
         = (if (Instance.started (tracker Instance_up)
                && (0 <? MaxConnections (client Instance_up)))%bool
            then 1%nat else 0%nat)
      /\ count is_write h = 0%nat)
  /\ (exists b w' h,
         Global.readinessTest addr addr Global_up = Done b w'
         /\ history w' = history Global_up ++ h
         /\ count is_load h
            = (if (Global.started (tracker Global_up)
                   && (0 <? MaxConnections (client Global_up)))%bool
               then 1%nat else 0%nat)
         /\ count is_write h = 0%nat).
Proof.
  apply (counter_loaded_only_under_limit Instance_up Global_up); reflexivity.
Defined.

(** X7.  [isReady] of part_000 logs one line with [logging.Errorf] each
    time it answers false, naming the cause, and logs nothing when it
    answers true. *)
Theorem isReady_logs_every_refusal
  (w : Instance.W) (Q : Instance.quiescent w) :
  exists b w' h,
    Instance.isReady addr addr w = Done b w'
    /\ history w' = history w ++ h
    /\ count is_errorf h = (if b then 0%nat else 1%nat)
    /\ (b = false -> Instance.started (tracker w) = false ->
        In (Errorf "Readiness failed because proxy has not finished starting up." []) h)
    /\ (b = false -> Instance.started (tracker w) = true ->
        In (Errorf "Readiness failed because proxy has reached the maximum connections limit (%d)."
              [MaxConnections (client w)]) h).
Proof.
  rewrite (Instance_isReady_effects w Q).
  eexists. eexists. eexists. split; [reflexivity |]. simpl.
  split; [reflexivity |]. unfold at_limit.
  destruct (Instance.started (tracker w));
    destruct (0 <? MaxConnections (client w));
    destruct (MaxConnections (client w) <=? ConnectionsCounter (client w));
    simpl; (split; [reflexivity |]); split; intros H1 H2;
    try discriminate H1; try discriminate H2; simpl; auto.
Qed.

Lemma isReady_logs_every_refusal_witness :
  exists b w' h,
    Instance.isReady addr addr Instance_up = Done b w'
    /\ history w' = history Instance_up ++ h
    /\ count is_errorf h = (if b then 0%nat else 1%nat)
    /\ (b = false -> Instance.started (tracker Instance_up) = false ->
        In (Errorf "Readiness failed because proxy has not finished starting up." []) h)
    /\ (b = false -> Instance.started (tracker Instance_up) = true ->
        In (Errorf "Readiness failed because proxy has reached the maximum connections limit (%d)."
              [MaxConnections (client Instance_up)]) h).
Proof.
  apply (isReady_logs_every_refusal Instance_up). reflexivity.
Defined.

(** ** The HTTP routes *)

(** X1.  The readiness route of part_000 writes status 200 with body
    [ok] exactly when the tracker is started and the maximum is zero or
    the count is below it, and status 500 with body [error] in every
    other case; it changes neither the tracker nor the client. *)
Theorem readiness_route_status
  (w : Instance.W) (Q : Instance.quiescent w) :
  exists r w',
    Instance.readinessHandler addr addr w = Done r w'
    /\ tracker w' = tracker w /\ client w' = client w
    /\ (r = ok200 \/ r = error500)
    /\ (r = ok200 <->
        Instance.started (tracker w) = true
        /\ (MaxConnections (client w) = 0
            \/ ConnectionsCounter (client w) < MaxConnections (client w))).
Proof.
  unfold Instance.readinessHandler, bind.
  rewrite (Instance_isReady_effects w Q).
  pose proof (ready_bool_iff (Instance.started (tracker w)) (client w))
    as Hiff.
  destruct (Instance.started (tracker w) && negb (at_limit (client w)))%bool;
    simpl; eexists; eexists; (split; [reflexivity |]); simpl;
    (split; [reflexivity |]); (split; [reflexivity |]).
  - split; [left; reflexivity |].
    split; intros _; [apply Hiff |]; reflexivity.
  - split; [right; reflexivity |]. split; intros H.
    + discriminate H.
    + apply Hiff in H. discriminate H.
Qed.

Lemma readiness_route_status_witness :
  exists r w',
    Instance.readinessHandler addr addr Instance_up = Done r w'
    /\ tracker w' = tracker Instance_up /\ client w' = client Instance_up
    /\ (r = ok200 \/ r = error500)
    /\ (r = ok200 <->
        Instance.started (tracker Instance_up) = true
        /\ (MaxConnections (client Instance_up) = 0
            \/ ConnectionsCounter (client Instance_up)
               < MaxConnections (client Instance_up))).
Proof.
  apply (readiness_route_status Instance_up). reflexivity.
Defined.

(** X3.  The readiness route of healthcheck.go, entered with the
    readiness and startup mutexes free: it stores the test's answer in
    [hc.ready], answers 200 when that answer is true and 500 when it is
    false, and on either branch gives back both mutexes; the other
    fields of the tracker and the client are as before. *)
Theorem global_readiness_route
  (w : Global.W)
  (Qr : Global.readinessMutex (pkg w) = Unlocked)
  (Qs : Global.startupMutex (pkg w) = Unlocked) :
  exists b r w',
    Global.readinessHandler addr addr w = Done r w'
    /\ (b = true <->
        Global.started (tracker w) = true
        /\ (MaxConnections (client w) = 0
            \/ ConnectionsCounter (client w) < MaxConnections (client w)))
    /\ r = (if b then ok200_nl else error500_nl)
    /\ tracker w'
       = Global.mkHC (Global.live (tracker w)) b
           (Global.started (tracker w)) (Global.srv (tracker w))
    /\ pkg w' = pkg w
    /\ client w' = client w.
Proof.
  exists (Global.started (tracker w) && negb (at_limit (client w)))%bool.
  destruct w as [[lv rd s v] [mr ml ms] [m n] h]. simpl in *. subst mr ms.
  pose proof (ready_bool_iff s (mkClient m n)) as Hiff.
  unfold at_limit in *. simpl in *.
  destruct s; [destruct (0 <? m) eqn:Em; [destruct (m <=? n) eqn:En |] |];
    eexists; eexists;
    (split; [run_go Global.readinessHandler; run_go Global.readinessTest;
             rewrite ?Em; simpl; rewrite ?En; simpl; reflexivity |]);
    simpl; (split; [exact Hiff |]); repeat (split; [reflexivity |]);
    reflexivity.
Qed.

Lemma global_readiness_route_witness :
  exists b r w',
    Global.readinessHandler addr addr Global_up = Done r w'
    /\ (b = true <->
        Global.started (tracker Global_up) = true
        /\ (MaxConnections (client Global_up) = 0
            \/ ConnectionsCounter (client Global_up)
               < MaxConnections (client Global_up)))
    /\ r = (if b then ok200_nl else error500_nl)
    /\ tracker w'
       = Global.mkHC (Global.live (tracker Global_up)) b
           (Global.started (tracker Global_up)) (Global.srv (tracker Global_up))
    /\ pkg w' = pkg Global_up
    /\ client w' = client Global_up.
Proof.
  apply (global_readiness_route Global_up); reflexivity.
Defined.

(** X5.  The readiness route of healthcheck.go parks exactly when the
    readiness mutex or the startup mutex is held on entry, and with
    tracker and client in place it never panics: it never unlocks a
    mutex it does not hold. *)
Theorem global_readiness_route_parks (w : Global.W) :
  (Global.readinessHandler addr addr w = Blocked <->
   Global.readinessMutex (pkg w) = Locked
   \/ Global.startupMutex (pkg w) = Locked)
  /\ (forall why, Global.readinessHandler addr addr w <> Panic why).
Proof.
  destruct w as [[lv rd s v] [mr ml ms] [m n] h].
  destruct mr, ms, s; simpl;
    run_go Global.readinessHandler; run_go Global.readinessTest;
    try (destruct (0 <? m); simpl; try destruct (m <=? n); simpl);
    (split; [split; [intros H; try discriminate H; auto
                    | intros [H | H]; try discriminate H; reflexivity]
            | intros why H; discriminate H]).
Qed.

(** X4.  The liveness route answers 200 in every revision.  In part_000
    it takes no lock and changes nothing; in healthcheck.go it needs the
    liveness mutex only, so a held readiness or startup mutex does not
    delay it, and it leaves [hc.live] true and the mutexes as found; in
    part_001 it leaves [hc.live] true and prints two lines. *)
Theorem liveness_route_always_ok
  (wi : Instance.W) (wg : Global.W) (wd : Draft.W)
  (Ql : Global.livenessMutex (pkg wg) = Unlocked) :
  Instance.livenessHandler wi = Done ok200 wi
  /\ Global.livenessHandler addr wg = Done ok200_nl (Global.set_live true wg)
  /\ Draft.livenessHandler addr wd
     = Done ok200_nl
         (mkWorld (Draft.mkHealthCheck true (Draft.ready (tracker wd))
                     (Draft.started (tracker wd)))
            (pkg wd) (client wd)
            (history wd ++ [Printf ("hit liveness endpoint" ++ nl);
                            Printf ("running liveness test" ++ nl)])).
Proof.
  split; [reflexivity |]. split.
  - destruct wg as [[lv rd s v] [mr ml ms] cl h]. simpl in Ql. subst ml.
    reflexivity.
  - destruct wd as [[lv rd s] g cl h].
    run_go Draft.livenessHandler. run_go Draft.livenessTest.
    rewrite <- app_assoc. reflexivity.
Qed.

Lemma liveness_route_always_ok_witness :
  Instance.livenessHandler Instance_up = Done ok200 Instance_up
  /\ Global.livenessHandler addr Global_probing
     = Done ok200_nl (Global.set_live true Global_probing)
  /\ Draft.livenessHandler addr Draft_up
     = Done ok200_nl
         (mkWorld (Draft.mkHealthCheck true (Draft.ready (tracker Draft_up))
                     (Draft.started (tracker Draft_up)))
            (pkg Draft_up) (client Draft_up)
            (history Draft_up ++ [Printf ("hit liveness endpoint" ++ nl);
                                  Printf ("running liveness test" ++ nl)])).
Proof.
  apply (liveness_route_always_ok Instance_up Global_probing Draft_up).
  reflexivity.
Defined.

(** ** Nil pointers *)

(** X8.  The client is not touched before startup: in every revision a
    readiness test on a tracker that is not started answers false even
    when the client pointer is nil.  Once the tracker is started the
    same call panics with a nil dereference. *)
Theorem nil_client_matters_only_once_started
  (wi : Instance.W) (wg : Global.W) (wd : Draft.W)
  (Qi : Instance.quiescent wi) (Qg : Global.quiescent wg) :
  ((Instance.started (tracker wi) = false ->
    exists w', Instance.isReady nil addr wi = Done false w'
               /\ tracker w' = tracker wi /\ client w' = client wi)
   /\ (Instance.started (tracker wi) = true ->
       Instance.isReady nil addr wi = Panic NilDereference))
  /\ ((Global.started (tracker wg) = false ->
       Global.readinessTest nil addr wg = Done false wg)
      /\ (Global.started (tracker wg) = true ->
          Global.readinessTest nil addr wg = Panic NilDereference))
  /\ ((Draft.started (tracker wd) = false ->
       exists w', Draft.readinessTest nil addr wd = Done false w'
                  /\ tracker w' = tracker wd /\ client w' = client wd)
      /\ (Draft.started (tracker wd) = true ->
          Draft.readinessTest nil addr wd = Panic NilDereference)).
Proof.
  destruct wi as [[l si p v] gi ci hi]. destruct wg as [[lv rd sg vg] [mr ml ms] cg hg].
  destruct wd as [[lvd rdd sd] gd cd hd].
  unfold Instance.quiescent, Global.quiescent in *. simpl in *. subst l ms.
  split; [| split]; split; intros ->;
    try reflexivity; eexists; split; try reflexivity; split; reflexivity.
Qed.

Lemma nil_client_matters_only_once_started_witness :
  ((Instance.started (tracker Instance_up) = false ->
    exists w', Instance.isReady nil addr Instance_up = Done false w'
               /\ tracker w' = tracker Instance_up
               /\ client w' = client Instance_up)
   /\ (Instance.started (tracker Instance_up) = true ->
       Instance.isReady nil addr Instance_up = Panic NilDereference))
  /\ ((Global.started (tracker Global_up) = false ->
       Global.readinessTest nil addr Global_up = Done false Global_up)
      /\ (Global.started (tracker Global_up) = true ->
          Global.readinessTest nil addr Global_up = Panic NilDereference))
  /\ ((Draft.started (tracker Draft_up) = false ->
       exists w', Draft.readinessTest nil addr Draft_up = Done false w'
                  /\ tracker w' = tracker Draft_up
                  /\ client w' = client Draft_up)
      /\ (Draft.started (tracker Draft_up) = true ->
          Draft.readinessTest nil addr Draft_up = Panic NilDereference)).
Proof.
  apply (nil_client_matters_only_once_started Instance_up Global_up Draft_up);
    reflexivity.
Defined.

(** ** The first revision *)

(** X15.  What part_001 answers once started, for a count that fits in
    a uint64: true exactly when the maximum is zero, or the count is
    below the maximum, or the count is 2^64 - 1, the one count whose
    increment wraps. *)
Theorem draft_answer_characterised
  (w : Draft.W)
  (S : Draft.started (tracker w) = true)
  (Fit : U64.in_range (ConnectionsCounter (client w))) :
  exists b w',
    Draft.readinessTest addr addr w = Done b w'
    /\ (b = true <->
        MaxConnections (client w) = 0
        \/ ConnectionsCounter (client w) < MaxConnections (client w)
        \/ ConnectionsCounter (client w) = U64.modulus - 1).
Proof.
  rewrite (Draft_readinessTest_started w S).
  eexists. eexists. split; [reflexivity |].
  destruct (client w) as [m c]. simpl in *.
  rewrite negb_true_iff, andb_false_iff, N.ltb_ge, N.ltb_ge.
  unfold U64.in_range in Fit. rewrite modulus_value in *.
  destruct (N.eq_dec c 18446744073709551615) as [-> | Hne].
  - change (U64.add 18446744073709551615 1) with 0. split; [auto |].
    intros _. right. lia.
  - rewrite add_one_no_wrap by (rewrite modulus_value; lia). lia.
Qed.

Lemma draft_answer_characterised_witness :
  exists b w',
    Draft.readinessTest addr addr Draft_up = Done b w'
    /\ (b = true <->
        MaxConnections (client Draft_up) = 0
        \/ ConnectionsCounter (client Draft_up)
           < MaxConnections (client Draft_up)
        \/ ConnectionsCounter (client Draft_up) = U64.modulus - 1).
Proof.
  apply (draft_answer_characterised Draft_up); reflexivity.
Defined.

(** X14.  [atomic.AddUint64(&counter, ^uint64(0))], the deferred call
    of part_001, is a decrement: a positive count that fits goes down
    by one, and a zero count wraps to 2^64 - 1.  The maximum and the
    tracker are not touched. *)
Theorem add_all_ones_decrements
  (w : Draft.W) (Fit : U64.in_range (ConnectionsCounter (client w))) :
  exists v w',
    AddUint64 addr (U64.lnot 0) w = Done v w'
    /\ ConnectionsCounter (client w') = v
    /\ MaxConnections (client w') = MaxConnections (client w)
    /\ tracker w' = tracker w
    /\ (0 < ConnectionsCounter (client w) ->
        v = ConnectionsCounter (client w) - 1)
    /\ (ConnectionsCounter (client w) = 0 -> v = U64.modulus - 1).
Proof.
  unfold AddUint64, bind, deref, ret, gets, modify, emit, set_client.
  eexists. eexists. split; [reflexivity |]. cbn [client tracker
    ConnectionsCounter MaxConnections].
  repeat (split; [reflexivity |]).
  unfold U64.in_range in Fit. unfold U64.add, U64.wrap.
  rewrite lnot_zero, modulus_value in *. split.
  - intros Hpos.
    replace (ConnectionsCounter (client w) + (18446744073709551616 - 1))
      with (ConnectionsCounter (client w) - 1 + 1 * 18446744073709551616)
      by lia.
    rewrite N.Div0.mod_add. apply N.mod_small. lia.
  - intros ->. reflexivity.
Qed.

Lemma add_all_ones_decrements_witness :
  exists v w',
    AddUint64 addr (U64.lnot 0) Draft_up = Done v w'
    /\ ConnectionsCounter (client w') = v
    /\ MaxConnections (client w') = MaxConnections (client Draft_up)
    /\ tracker w' = tracker Draft_up
    /\ (0 < ConnectionsCounter (client Draft_up) ->
        v = ConnectionsCounter (client Draft_up) - 1)
    /\ (ConnectionsCounter (client Draft_up) = 0 -> v = U64.modulus - 1).
Proof.
  apply (add_all_ones_decrements Draft_up). reflexivity.
Defined.

(** ** Who owns the connection count *)

(** A run of calls in which the tracker's own calls give the client
    back as they found it, and only the connection handling stores a
    count: at the end the maximum is the configured one and the count
    is the one stored last.  [P] is a property of the effects issued
    that holds of no effects and is kept by concatenation. *)
Section Ownership.
Variable W : Type.
Variable api : Api W.
Variable inv : W -> Prop.
Variable cl : W -> Client.
Variable hist : W -> list event.
Variable P : list event -> bool.

Hypothesis P_nil : P [] = true.
Hypothesis P_app : forall a b, P a = true -> P b = true -> P (a ++ b) = true.
Hypothesis notify_keeps : forall w, inv w ->
  exists w' h, api_notify api w = Done tt w' /\ inv w' /\ cl w' = cl w
               /\ hist w' = hist w ++ h /\ P h = true.
Hypothesis ready_keeps : forall w, inv w ->
  exists b w' h, api_ready api w = Done b w' /\ inv w' /\ cl w' = cl w
                 /\ hist w' = hist w ++ h /\ P h = true.
Hypothesis live_keeps : forall w, inv w ->
  exists b w' h, api_live api w = Done b w' /\ inv w' /\ cl w' = cl w
                 /\ hist w' = hist w ++ h /\ P h = true.
Hypothesis conn_sets : forall n w, inv w ->
  inv (api_conn api n w)
  /\ cl (api_conn api n w) = mkClient (MaxConnections (cl w)) (U64.wrap n)
  /\ hist (api_conn api n w) = hist w.

Lemma exec_ownership (cs : list call) : forall w,
  inv w ->
  exists w' h,
    exec api cs w = Done tt w' /\ inv w'
    /\ cl w' = mkClient (MaxConnections (cl w))
                 (last_count cs (ConnectionsCounter (cl w)))
    /\ hist w' = hist w ++ h /\ P h = true.
Proof.
  induction cs as [| c cs IH]; intros w Hw.
  - exists w, []. simpl. unfold ret. rewrite app_nil_r.
    destruct (cl w). auto.
  - destruct c; simpl; unfold bind, ret, modify.
    + destruct (notify_keeps w Hw) as (w1 & h1 & E & I & C & H & Ph).
      destruct (IH w1 I) as (w2 & h2 & E2 & I2 & C2 & H2 & Ph2).
      exists w2, (h1 ++ h2). rewrite E. simpl.
      rewrite E2, C2, H2, H, C, app_assoc.
      repeat (split; [reflexivity || assumption |]). apply P_app; assumption.
    + destruct (ready_keeps w Hw) as (b & w1 & h1 & E & I & C & H & Ph).
      destruct (IH w1 I) as (w2 & h2 & E2 & I2 & C2 & H2 & Ph2).
      exists w2, (h1 ++ h2). rewrite E. simpl.
      rewrite E2, C2, H2, H, C, app_assoc.
      repeat (split; [reflexivity || assumption |]). apply P_app; assumption.
    + destruct (live_keeps w Hw) as (b & w1 & h1 & E & I & C & H & Ph).
      destruct (IH w1 I) as (w2 & h2 & E2 & I2 & C2 & H2 & Ph2).
      exists w2, (h1 ++ h2). rewrite E. simpl.
      rewrite E2, C2, H2, H, C, app_assoc.
      repeat (split; [reflexivity || assumption |]). apply P_app; assumption.
    + destruct (conn_sets n w Hw) as (I & C & H).
      destruct (IH _ I) as (w2 & h2 & E2 & I2 & C2 & H2 & Ph2).
      exists w2, h2. rewrite E2, C2, H2, H, C. simpl.
      repeat (split; [reflexivity || assumption |]). assumption.
Qed.
End Ownership.

Lemma reads_only_app (a b : list event) :
  reads_only a = true -> reads_only b = true -> reads_only (a ++ b) = true.
Proof.
  unfold reads_only. intros Ha Hb. rewrite forallb_app, Ha, Hb. reflexivity.
Qed.

Lemma wrap_in_range (n : N) : U64.in_range (U64.wrap n).
Proof.
  unfold U64.in_range, U64.wrap. apply N.mod_lt. rewrite modulus_value.
  discriminate.
Qed.

(** X10.  In part_000 and healthcheck.go the connection count belongs
    to the connection handling alone: after any sequence of
    notifications, probes and connection events the maximum is the
    configured one, the count is the one the connection handling stored
    last, and the tracker has issued no write to the counter. *)
Theorem count_owned_by_connections
  (cs : list call) (wi : Instance.W) (wg : Global.W)
  (Qi : Instance.quiescent wi) (Qg : Global.quiescent wg) :
  (exists w' h,
      exec Instance.api cs wi = Done tt w'
      /\ client w'
         = mkClient (MaxConnections (client wi))
             (last_count cs (ConnectionsCounter (client wi)))
      /\ history w' = history wi ++ h /\ reads_only h = true)
  /\ (exists w' h,
         exec Global.api cs wg = Done tt w'
         /\ client w'
            = mkClient (MaxConnections (client wg))
                (last_count cs (ConnectionsCounter (client wg)))
         /\ history w' = history wg ++ h /\ reads_only h = true).
Proof.
  split.
  - destruct (exec_ownership Instance.W Instance.api Instance.quiescent
                client history reads_only eq_refl reads_only_app) with
      (cs := cs) (w := wi) as (w' & h & E & _ & C & H & R).
    + intros w Q. exists (Instance.set_started true w), [].
      split; [apply Instance_NotifyStarted_done; exact Q |].
      destruct w as [[l s p v] g c hh]. simpl. rewrite app_nil_r. auto.
    + intros w Q. destruct (Instance_isReady_spec w Q) as (h & E & R).
      eexists. eexists. exists h. split; [exact E |]. simpl. auto.
    + intros w Q. exists true, w, []. simpl. rewrite app_nil_r. auto.
    + intros n w Q. destruct w as [[l s p v] g c hh]. simpl. auto.
    + exact Qi.
    + exists w', h. auto.
  - destruct (exec_ownership Global.W Global.api Global.quiescent
                client history reads_only eq_refl reads_only_app) with
      (cs := cs) (w := wg) as (w' & h & E & _ & C & H & R).
    + intros w Q. exists (Global.set_started true w), [].
      split; [apply Global_Notify_done; exact Q |].
      destruct w as [[lv rd s v] [mr ml ms] c hh]. simpl.
      rewrite app_nil_r. auto.
    + intros w Q. destruct (Global_readinessTest_spec w Q) as (h & E & R).
      eexists. eexists. exists h. split; [exact E |]. simpl. auto.
    + intros w Q. exists true, w, []. simpl. rewrite app_nil_r. auto.
    + intros n w Q. destruct w as [[lv rd s v] [mr ml ms] c hh]. simpl. auto.
    + exact Qg.
    + exists w', h. auto.
Qed.

Lemma count_owned_by_connections_witness :
  (exists w' h,
      exec Instance.api [QueryReady; ConnCount 7; Notify; QueryReady]
        Instance_up = Done tt w'
      /\ client w'
         = mkClient (MaxConnections (client Instance_up))
             (last_count [QueryReady; ConnCount 7; Notify; QueryReady]
                (ConnectionsCounter (client Instance_up)))
      /\ history w' = history Instance_up ++ h /\ reads_only h = true)
  /\ (exists w' h,
         exec Global.api [QueryReady; ConnCount 7; Notify; QueryReady]
           Global_up = Done tt w'
         /\ client w'
            = mkClient (MaxConnections (client Global_up))
                (last_count [QueryReady; ConnCount 7; Notify; QueryReady]
                   (ConnectionsCounter (client Global_up)))
         /\ history w' = history Global_up ++ h /\ reads_only h = true).
Proof.
  apply (count_owned_by_connections
           [QueryReady; ConnCount 7; Notify; QueryReady]
           Instance_up Global_up); reflexivity.
Defined.

Lemma count_app (p : event -> bool) (a b : list event) :
  count p (a ++ b) = (count p a + count p b)%nat.
Proof. unfold count. rewrite filter_app, length_app. reflexivity. Qed.

(** A run of the first revision, call by call: where the client ends
    and how many writes to the counter the tracker has issued. *)
Lemma Draft_exec_effects (cs : list call) : forall w : Draft.W,
  U64.in_range (ConnectionsCounter (client w)) ->
  exists w' h,
    exec Draft.api cs w = Done tt w'
    /\ client w'
       = mkClient (MaxConnections (client w))
           (last_count cs (ConnectionsCounter (client w)))
    /\ U64.in_range (ConnectionsCounter (client w'))
    /\ history w' = history w ++ h
    /\ count is_write h
       = (2 * started_probes cs (Draft.started (tracker w)))%nat.
Proof.
  induction cs as [| c cs IH]; intros w Fit.
  - exists w, []. simpl. unfold ret. rewrite app_nil_r.
    destruct (client w). auto.
  - destruct c.
    + (* NotifyReady *)
      destruct w as [[lv rd s] g [m c] h]. simpl in Fit.
      destruct (IH (mkWorld (Draft.mkHealthCheck lv rd true) g (mkClient m c)
                      (h ++ [Printf ("ready notification received" ++ nl)]))
                  Fit)
        as (w' & h' & E & C & I & H & Cn).
      exists w', (Printf ("ready notification received" ++ nl) :: h').
      split; [exact E |]. split; [exact C |]. split; [exact I |].
      split; [rewrite H; simpl; rewrite <- app_assoc; reflexivity |].
      exact Cn.
    + (* readinessTest *)
      destruct (Draft.started (tracker w)) eqn:S.
      * pose proof (Draft_readinessTest_started w S) as Er.
        cbv zeta in Er. rewrite (add_one_then_ones _ Fit) in Er.
        destruct w as [[lv rd s] g [m c] h]. simpl in Fit, S, Er. subst s.
        destruct (IH (mkWorld (Draft.mkHealthCheck lv rd true) g
                        (mkClient m c)
                        (h ++ [Printf ("running readiness test" ++ nl);
                               AddCounter 1 (U64.add c 1);
                               AddCounter (U64.lnot 0) c]))
                    Fit)
          as (w' & h' & E & C & I & H & Cn).
        exists w', ([Printf ("running readiness test" ++ nl);
                     AddCounter 1 (U64.add c 1);
                     AddCounter (U64.lnot 0) c] ++ h').
        split.
        { change (exec Draft.api (QueryReady :: cs))
            with (bind (bind (Draft.readinessTest addr addr)
                          (fun _ => ret tt))
                    (fun _ => exec Draft.api cs)).
          unfold bind at 1 2. rewrite Er. unfold ret. exact E. }
        split; [exact C |]. split; [exact I |].
        split; [rewrite H; simpl; rewrite <- app_assoc; reflexivity |].
        rewrite count_app, Cn. simpl. lia.
      * pose proof (Draft_readinessTest_not_started w S) as Er.
        destruct w as [[lv rd s] g [m c] h]. simpl in Fit, S, Er. subst s.
        destruct (IH (mkWorld (Draft.mkHealthCheck lv rd false) g
                        (mkClient m c)
                        (h ++ [Printf ("running readiness test" ++ nl);
                               Printf ("readiness test failed because startup was not completed" ++ nl)]))
                    Fit)
          as (w' & h' & E & C & I & H & Cn).
        exists w', ([Printf ("running readiness test" ++ nl);
                     Printf ("readiness test failed because startup was not completed" ++ nl)]
                    ++ h').
        split.
        { change (exec Draft.api (QueryReady :: cs))
            with (bind (bind (Draft.readinessTest addr addr)
                          (fun _ => ret tt))
                    (fun _ => exec Draft.api cs)).
          unfold bind at 1 2. rewrite Er. unfold ret. exact E. }
        split; [exact C |]. split; [exact I |].
        split; [rewrite H; simpl; rewrite <- app_assoc; reflexivity |].
        rewrite count_app, Cn. simpl. lia.
    + (* livenessTest *)
      destruct w as [[lv rd s] g [m c] h]. simpl in Fit.
      destruct (IH (mkWorld (Draft.mkHealthCheck lv rd s) g (mkClient m c)
                      (h ++ [Printf ("running liveness test" ++ nl)]))
                  Fit)
        as (w' & h' & E & C & I & H & Cn).
      exists w', (Printf ("running liveness test" ++ nl) :: h').
      split; [exact E |]. split; [exact C |]. split; [exact I |].
      split; [rewrite H; simpl; rewrite <- app_assoc; reflexivity |].
      exact Cn.
    + (* the connection handling stores a count *)
      destruct w as [[lv rd s] g [m c] h].
      destruct (IH (mkWorld (Draft.mkHealthCheck lv rd s) g
                      (mkClient m (U64.wrap n)) h)
                  (wrap_in_range n))
        as (w' & h' & E & C & I & H & Cn).
      exists w', h'.
      split; [exact E |]. split; [exact C |]. split; [exact I |].
      split; [exact H | exact Cn].
Qed.

(** X11.  The first revision writes the counter twice at every
    readiness probe that finds the tracker started, and at no other
    call, and still leaves no drift: from a count that fits in a
    uint64, any sequence of notifications, probes and connection events
    runs to its end without panic, ends with the configured maximum and
    the count the connection handling stored last, and has issued two
    counter writes for each probe made with the flag up. *)
Theorem draft_probes_leave_no_drift
  (cs : list call) (w : Draft.W)
  (Fit : U64.in_range (ConnectionsCounter (client w))) :
  exists w' h,
    exec Draft.api cs w = Done tt w'
    /\ client w'
       = mkClient (MaxConnections (client w))
           (last_count cs (ConnectionsCounter (client w)))
    /\ U64.in_range (ConnectionsCounter (client w'))
    /\ history w' = history w ++ h
    /\ count is_write h
       = (2 * started_probes cs (Draft.started (tracker w)))%nat
    /\ (started_probes cs (Draft.started (tracker w)) = 0%nat
        <-> reads_only h = true).
Proof.
  destruct (Draft_exec_effects cs w Fit) as (w' & h & E & C & I & H & Cn).
  exists w', h. repeat (split; [assumption |]).
  assert (R : reads_only h = true <-> count is_write h = 0%nat).
  { clear. unfold reads_only, count. induction h as [| e h IH]; simpl.
    - split; reflexivity.
    - destruct (is_write e); simpl.
      + split; intros H; discriminate H.
      + exact IH. }
  rewrite R, Cn. lia.
Qed.

Lemma draft_probes_leave_no_drift_witness :
  exists w' h,
    exec Draft.api
      [QueryReady; Notify; QueryReady; ConnCount 12; QueryReady; QueryLive]
      (Draft.boot (mkClient 10 3)) = Done tt w'
    /\ client w'
       = mkClient (MaxConnections (client (Draft.boot (mkClient 10 3))))
           (last_count
              [QueryReady; Notify; QueryReady; ConnCount 12; QueryReady;
               QueryLive]
              (ConnectionsCounter (client (Draft.boot (mkClient 10 3)))))
    /\ U64.in_range (ConnectionsCounter (client w'))
    /\ history w' = history (Draft.boot (mkClient 10 3)) ++ h
    /\ count is_write h
       = (2 * started_probes
                [QueryReady; Notify; QueryReady; ConnCount 12; QueryReady;
                 QueryLive]
                (Draft.started (tracker (Draft.boot (mkClient 10 3)))))%nat
    /\ (started_probes
          [QueryReady; Notify; QueryReady; ConnCount 12; QueryReady;
           QueryLive]
          (Draft.started (tracker (Draft.boot (mkClient 10 3)))) = 0%nat
        <-> reads_only h = true).
Proof.
  apply (draft_probes_leave_no_drift
           [QueryReady; Notify; QueryReady; ConnCount 12; QueryReady;
            QueryLive]
           (Draft.boot (mkClient 10 3))).
  reflexivity.
Defined.

(** The comparison of part_001 after the increment, for a count that
    fits. *)
Lemma draft_test_iff (m c : N) :
  U64.in_range c ->
  negb ((0 <? m) && (m <? U64.add c 1)) = true <->
  m = 0 \/ c < m \/ c = U64.modulus - 1.
Proof.
  intros Fit. rewrite negb_true_iff, andb_false_iff, N.ltb_ge, N.ltb_ge.
  unfold U64.in_range in Fit. rewrite modulus_value in *.
  destruct (N.eq_dec c 18446744073709551615) as [-> | Hne].
  - change (U64.add 18446744073709551615 1) with 0. split; [auto |].
    intros _. right. lia.
  - rewrite add_one_no_wrap by (rewrite modulus_value; lia). lia.
Qed.

(** X13.  The readiness route of part_001, on a count that fits in a
    uint64: it stores the test's answer in [hc.ready], answers 200 when
    the answer is true and 500 when it is false, gives the client back
    as it found it, and has written the counter twice if the tracker is
    started and not at all if it is not. *)
Theorem draft_readiness_route
  (w : Draft.W) (Fit : U64.in_range (ConnectionsCounter (client w))) :
  exists (b : bool) (r : Response) (w' : Draft.W) (h : list event),
    Draft.readinessHandler addr addr w = Done r w'
    /\ r = (if b then ok200_nl else error500_nl)
    /\ (b = true <->
        Draft.started (tracker w) = true
        /\ (MaxConnections (client w) = 0
            \/ ConnectionsCounter (client w) < MaxConnections (client w)
            \/ ConnectionsCounter (client w) = U64.modulus - 1))
    /\ tracker w'
       = Draft.mkHealthCheck (Draft.live (tracker w)) b
           (Draft.started (tracker w))
    /\ client w' = client w
    /\ history w' = history w ++ h
    /\ count is_write h
       = (if Draft.started (tracker w) then 2%nat else 0%nat).
Proof.
  destruct w as [[lv rd s] g [m c] h]. simpl in *.
  pose proof (draft_test_iff m c Fit) as Hiff.
  pose proof (add_one_then_ones c Fit) as Hback.
  destruct s.
  - exists (negb ((0 <? m) && (m <? U64.add c 1))).
    destruct (0 <? m) eqn:Em; [destruct (m <? U64.add c 1) eqn:En |];
      simpl in Hiff |- *;
      eexists; eexists;
      exists [Printf ("hit readiness endpoint" ++ nl);
              Printf ("running readiness test" ++ nl);
              AddCounter 1 (U64.add c 1);
              AddCounter (U64.lnot 0) (U64.add (U64.add c 1) (U64.lnot 0))];
      (split; [
         run_go Draft.readinessHandler; run_go Draft.readinessTest;
         unfold Draft.defer; run_go Draft.readinessTest;
         rewrite ?Em; simpl; rewrite ?En; simpl; reflexivity |]);
      unfold Draft.set_ready, set_tracker;
      cbn [tracker client history pkg ConnectionsCounter MaxConnections
             Draft.live Draft.ready Draft.started];
      change (N.ones 64) with (U64.lnot 0); rewrite Hback;
      (split; [reflexivity |]); (split; [tauto |]);
      (split; [reflexivity |]); (split; [reflexivity |]);
      rewrite <- !app_assoc; split; reflexivity.
  - exists false. eexists. eexists.
    exists [Printf ("hit readiness endpoint" ++ nl);
            Printf ("running readiness test" ++ nl);
            Printf ("readiness test failed because startup was not completed" ++ nl)].
    split.
    + run_go Draft.readinessHandler. run_go Draft.readinessTest.
      reflexivity.
    + simpl. split; [reflexivity |].
      split; [split; [intros H | intros [H _]]; discriminate H |].
      split; [reflexivity |]. split; [reflexivity |].
      rewrite <- !app_assoc. split; reflexivity.
Qed.

Lemma draft_readiness_route_witness :
  exists (b : bool) (r : Response) (w' : Draft.W) (h : list event),
    Draft.readinessHandler addr addr Draft_up = Done r w'
    /\ r = (if b then ok200_nl else error500_nl)
    /\ (b = true <->
        Draft.started (tracker Draft_up) = true
        /\ (MaxConnections (client Draft_up) = 0
            \/ ConnectionsCounter (client Draft_up)
               < MaxConnections (client Draft_up)
            \/ ConnectionsCounter (client Draft_up) = U64.modulus - 1))
    /\ tracker w'
       = Draft.mkHealthCheck (Draft.live (tracker Draft_up)) b
           (Draft.started (tracker Draft_up))
    /\ client w' = client Draft_up
    /\ history w' = history Draft_up ++ h
    /\ count is_write h
       = (if Draft.started (tracker Draft_up) then 2%nat else 0%nat).
Proof.
  apply (draft_readiness_route Draft_up). reflexivity.
Defined.

(** X12.  [NotifyReady] of part_001 repeated: the tracker ends as after
    one call, flag up and the other fields and the client untouched, but
    each call prints its line, so the output tells the calls apart. *)
Theorem draft_notify_prints_each_time (n : nat) : forall w : Draft.W,
  times (S n) (Draft.NotifyReady addr) w
  = Done tt
      (mkWorld
         (Draft.mkHealthCheck (Draft.live (tracker w))
            (Draft.ready (tracker w)) true)
         (pkg w) (client w)
         (history w
          ++ repeat (Printf ("ready notification received" ++ nl)) (S n))).
Proof.
  induction n as [| n IH]; intros w.
  - destruct w as [[lv rd s] g cl h]. reflexivity.
  - change (times (S (S n)) (Draft.NotifyReady addr) w)
      with (bind (Draft.NotifyReady addr)
              (fun _ => times (S n) (Draft.NotifyReady addr)) w).
    unfold bind at 1.
    replace (Draft.NotifyReady addr w)
      with (Done tt
              (mkWorld
                 (Draft.mkHealthCheck (Draft.live (tracker w))
                    (Draft.ready (tracker w)) true)
                 (pkg w) (client w)
                 (history w ++ [Printf ("ready notification received" ++ nl)])))
      by (destruct w as [[lv rd s] g cl h]; reflexivity).
    rewrite IH. simpl. rewrite <- app_assoc. reflexivity.
Qed.

(** ** Construction *)

(** X2.  [NewHealthCheck] of part_000 returns no tracker exactly when
    the address [":" ++ port] cannot be bound.  A tracker it returns
    listens on that address and starts out not ready: on any client its
    liveness route answers 200 and its readiness route 500; after
    [NotifyStarted] the readiness route answers 200 on a client without
    a maximum, whatever the count, and 500 on a client whose count
    equals a positive maximum. *)
Theorem fresh_tracker_scenarios
  (listen : string -> bool) (port : string) :
  (Instance.NewHealthCheck listen port = None
   <-> listen (":" ++ port)%string = false)
  /\ forall hc, Instance.NewHealthCheck listen port = Some hc ->
       Instance.port hc = port
       /\ Addr (Instance.srv hc) = (":" ++ port)%string
       /\ (forall cl,
              Instance.livenessHandler (mkWorld hc tt cl [])
              = Done ok200 (mkWorld hc tt cl []))
       /\ (forall cl, exists w',
              Instance.readinessHandler addr addr (mkWorld hc tt cl [])
              = Done error500 w')
       /\ (forall c, exists w1 w',
              Instance.NotifyStarted addr (mkWorld hc tt (mkClient 0 c) [])
              = Done tt w1
              /\ Instance.readinessHandler addr addr w1 = Done ok200 w')
       /\ (forall m, 0 < m -> exists w1 w',
              Instance.NotifyStarted addr (mkWorld hc tt (mkClient m m) [])
              = Done tt w1
              /\ Instance.readinessHandler addr addr w1 = Done error500 w').
Proof.
  unfold Instance.NewHealthCheck, Instance.newHC.
  cbn [Instance.srv Addr].
  destruct (listen (":" ++ port)%string) eqn:L.
  - split; [split; intros H; discriminate H |].
    intros hc H. injection H as <-. simpl.
    split; [reflexivity |]. split; [reflexivity |].
    split; [reflexivity |].
    split; [intros cl; eexists; reflexivity |].
    split.
    + intros c. eexists. eexists. split; reflexivity.
    + intros m Hm. eexists. eexists. split; [reflexivity |].
      run_go Instance.readinessHandler. run_go Instance.isReady.
      apply N.ltb_lt in Hm. rewrite Hm. simpl.
      rewrite N.leb_refl. reflexivity.
  - split; [split; reflexivity |]. intros hc H. discriminate H.
Qed.

Lemma fresh_tracker_scenarios_witness :
  (Instance.NewHealthCheck (fun _ => true) "9090" = None
   <-> (fun _ : string => true) (":" ++ "9090")%string = false)
  /\ forall hc, Instance.NewHealthCheck (fun _ => true) "9090" = Some hc ->
       Instance.port hc = "9090"
       /\ Addr (Instance.srv hc) = (":" ++ "9090")%string
       /\ (forall cl,
              Instance.livenessHandler (mkWorld hc tt cl [])
              = Done ok200 (mkWorld hc tt cl []))
       /\ (forall cl, exists w',
              Instance.readinessHandler addr addr (mkWorld hc tt cl [])
              = Done error500 w')
       /\ (forall c, exists w1 w',
              Instance.NotifyStarted addr (mkWorld hc tt (mkClient 0 c) [])
              = Done tt w1
              /\ Instance.readinessHandler addr addr w1 = Done ok200 w')
       /\ (forall m, 0 < m -> exists w1 w',
              Instance.NotifyStarted addr (mkWorld hc tt (mkClient m m) [])
              = Done tt w1
              /\ Instance.readinessHandler addr addr w1 = Done error500 w').
Proof.
  apply (fresh_tracker_scenarios (fun _ => true) "9090").
Defined.

(** ** Locks and receivers *)

(** X9.  Lock discipline of part_000: [NotifyStarted] and [isReady]
    park exactly when [startedL] is held on entry, give the mutex back
    when they return, and never panic on an unlock; [isLive] takes no
    lock and returns even while [startedL] is held. *)
Theorem startedL_discipline (w : Instance.W) :
  (Instance.NotifyStarted addr w = Blocked
   <-> Instance.startedL (tracker w) = Locked)
  /\ (Instance.isReady addr addr w = Blocked
      <-> Instance.startedL (tracker w) = Locked)
  /\ (forall w', Instance.NotifyStarted addr w = Done tt w' ->
        Instance.startedL (tracker w') = Unlocked)
  /\ (forall b w', Instance.isReady addr addr w = Done b w' ->
        Instance.startedL (tracker w') = Unlocked)
  /\ (forall why, Instance.NotifyStarted addr w <> Panic why)
  /\ (forall why, Instance.isReady addr addr w <> Panic why)
  /\ Instance.isLive w = Done true w.
Proof.
  destruct w as [[l s p v] g [m n] h].
  assert (R : forall b w',
             Instance.isReady addr addr
               (mkWorld (Instance.mkHC l s p v) g (mkClient m n) h)
             = Done b w' ->
             Instance.startedL (tracker w') = Unlocked).
  { intros b w' H. destruct l.
    - destruct (Instance_isReady_spec
                  (mkWorld (Instance.mkHC Unlocked s p v) g (mkClient m n) h)
                  eq_refl) as (h' & E & _).
      rewrite E in H. injection H as _ <-. reflexivity.
    - discriminate H. }
  assert (NP : forall why,
             Instance.isReady addr addr
               (mkWorld (Instance.mkHC l s p v) g (mkClient m n) h)
             <> Panic why).
  { intros why H. destruct l.
    - destruct (Instance_isReady_spec
                  (mkWorld (Instance.mkHC Unlocked s p v) g (mkClient m n) h)
                  eq_refl) as (h' & E & _).
      rewrite E in H. discriminate H.
    - discriminate H. }
  assert (NB : Instance.isReady addr addr
                 (mkWorld (Instance.mkHC l s p v) g (mkClient m n) h)
               = Blocked <-> l = Locked).
  { destruct l.
    - destruct (Instance_isReady_spec
                  (mkWorld (Instance.mkHC Unlocked s p v) g (mkClient m n) h)
                  eq_refl) as (h' & E & _).
      rewrite E. split; intros H; discriminate H.
    - split; reflexivity. }
  simpl. split; [| split; [exact NB | split; [| split; [exact R |
    split; [| split; [exact NP | reflexivity]]]]]].
  - destruct l; simpl; split; intros H; try discriminate H; reflexivity.
  - intros w' H. destruct l; simpl in H; [| discriminate H].
    injection H as <-. reflexivity.
  - intros why H. destruct l; discriminate H.
Qed.

(** X16.  Of the notification and test functions only
    [NotifyReadyForConnections] tolerates a nil tracker.  [NotifyStarted]
    and [isReady] of part_000 and [NotifyReady] and [readinessTest] of
    part_001 panic with a nil dereference in every world;
    [readinessTest] of healthcheck.go takes the startup mutex first, so
    it parks if the mutex is held and panics otherwise. *)
Theorem nil_tracker_panics
  (c : ptr) (wi : Instance.W) (wg : Global.W) (wd : Draft.W) :
  Instance.NotifyStarted nil wi = Panic NilDereference
  /\ Instance.isReady c nil wi = Panic NilDereference
  /\ Draft.NotifyReady nil wd = Panic NilDereference
  /\ Draft.readinessTest c nil wd = Panic NilDereference
  /\ Global.readinessTest c nil wg
     = (match Global.startupMutex (pkg wg) with
        | Unlocked => Panic NilDereference
        | Locked => Blocked
        end)
  /\ Global.NotifyReadyForConnections nil wg = Done tt wg.
Proof.
  repeat (split; [reflexivity |]).
  split; [| reflexivity].
  destruct wg as [t [mr ml ms] cl h]. destruct ms; reflexivity.
Qed.

(** X17.  What a notification changes: the started flag, and nothing
    else.  In part_000 the port, the server, the mutex, the client and
    the history are as before; in healthcheck.go the same holds for
    [live], [ready], the server and all three mutexes, and the call
    needs the startup mutex only, so it goes through while a probe
    holds the readiness or liveness mutex. *)
Theorem notification_frame
  (wi : Instance.W) (wg : Global.W)
  (Qi : Instance.quiescent wi) (Qg : Global.quiescent wg) :
  Instance.NotifyStarted addr wi
  = Done tt
      (mkWorld
         (Instance.mkHC Unlocked true (Instance.port (tracker wi))
            (Instance.srv (tracker wi)))
         (pkg wi) (client wi) (history wi))
  /\ Global.NotifyReadyForConnections addr wg
     = Done tt
         (mkWorld
            (Global.mkHC (Global.live (tracker wg)) (Global.ready (tracker wg))
               true (Global.srv (tracker wg)))
            (pkg wg) (client wg) (history wg)).
Proof.
  split.
  - destruct wi as [[l s p v] g cl h]. unfold Instance.quiescent in Qi.
    simpl in Qi. subst l. reflexivity.
  - destruct wg as [[lv rd s v] [mr ml ms] cl h].
    unfold Global.quiescent in Qg. simpl in Qg. subst ms. reflexivity.
Qed.

Lemma notification_frame_witness :
  Instance.NotifyStarted addr (Instance.boot "9090" (mkClient 10 3))
  = Done tt
      (mkWorld
         (Instance.mkHC Unlocked true
            (Instance.port (tracker (Instance.boot "9090" (mkClient 10 3))))
            (Instance.srv (tracker (Instance.boot "9090" (mkClient 10 3)))))
         (pkg (Instance.boot "9090" (mkClient 10 3)))
         (client (Instance.boot "9090" (mkClient 10 3)))
         (history (Instance.boot "9090" (mkClient 10 3))))
  /\ Global.NotifyReadyForConnections addr Global_probing_readiness
     = Done tt
         (mkWorld
            (Global.mkHC (Global.live (tracker Global_probing_readiness))
               (Global.ready (tracker Global_probing_readiness))
               true (Global.srv (tracker Global_probing_readiness)))
            (pkg Global_probing_readiness) (client Global_probing_readiness)
            (history Global_probing_readiness)).
Proof.
  apply (notification_frame (Instance.boot "9090" (mkClient 10 3))
           Global_probing_readiness); reflexivity.
Defined.

Lemma startedL_discipline_witness :
  (Instance.NotifyStarted addr Instance_up = Blocked
   <-> Instance.startedL (tracker Instance_up) = Locked)
  /\ (Instance.isReady addr addr Instance_up = Blocked
      <-> Instance.startedL (tracker Instance_up) = Locked)
  /\ (forall w', Instance.NotifyStarted addr Instance_up = Done tt w' ->
        Instance.startedL (tracker w') = Unlocked)
  /\ (forall b w', Instance.isReady addr addr Instance_up = Done b w' ->
        Instance.startedL (tracker w') = Unlocked)
  /\ (forall why, Instance.NotifyStarted addr Instance_up <> Panic why)
  /\ (forall why, Instance.isReady addr addr Instance_up <> Panic why)
  /\ Instance.isLive Instance_up = Done true Instance_up.
Proof.
  apply (startedL_discipline Instance_up).
Defined.
